(** * The Sutter MP-285 protocol driver (class [sutterMP285])

    A shallow embedding of the driver class of [mp285sutterwithGUI.py]:
    the byte-level codec it builds on ([struct.pack] / [struct.unpack]),
    the serial port it talks to, and the eight methods of the class, written
    in a small state-and-exception monad that threads the instance
    attributes, the port and the log of observable events.

    Modelling conventions.
    - A Python 2 [str] is a [list byte].
    - [struct] is used in native mode.  The host is the little-endian Windows
      machine the port name ['COM3'] belongs to, where a C [long] has four
      bytes (the class reads 13 bytes and unpacks the first 12 as ['lll']).
    - The methods carry the values the source holds in [numpy.float64] as
      rationals, without the rounding of binary64: what is stated of a
      method over them is stated of exact arithmetic.  Where the rounding
      decides the matter (a position sent and read back), the two conversion
      lines are given a second time over IEEE binary64, [steps_f64] and
      [um_f64].  The integers the class stores through [double(...)] (all
      below 65536) are kept as [Z]. *)

From Stdlib Require Import ZArith QArith Qabs List Bool Lia.
From Stdlib Require Import Strings.Byte.
From Stdlib Require Floats.PrimFloat Floats.FloatOps Floats.SpecFloat.
From Stdlib Require Numbers.Cyclic.Int63.Uint63.
Import ListNotations.
Local Open Scope Z_scope.

(** ** Characters and their codes *)

Definition ord (b : byte) : Z := Z.of_N (Byte.to_N b).

Definition chr (z : Z) : byte :=
  match Byte.of_N (Z.to_N (z mod 256)) with
  | Some b => b
  | None => x00
  end.

(** The terminator of every frame, ['\r']. *)
Definition CR : byte := x0d.

(** ** Python's [struct] module, as far as the class uses it *)

Module Struct.

(** [n] bytes of [v], least significant first (two's complement for
    negative [v]). *)
Fixpoint le_bytes (n : nat) (v : Z) : list byte :=
  match n with
  | O => []
  | S k => chr (Z.land v 255) :: le_bytes k (Z.shiftr v 8)
  end.

Definition le_unsigned (s : list byte) : Z :=
  fold_right (fun b acc => Z.lor (ord b) (Z.shiftl acc 8)) 0 s.

Definition le_signed32 (s : list byte) : Z :=
  let u := le_unsigned s in
  if Z.testbit u 31 then u - 2 ^ 32 else u.

(** [struct.pack('B', v)]: [None] stands for [struct.error]. *)
Definition pack_B (v : Z) : option (list byte) :=
  if (0 <=? v) && (v <=? 255) then Some (le_bytes 1 v) else None.

(** [struct.pack('H', v)] *)
Definition pack_H (v : Z) : option (list byte) :=
  if (0 <=? v) && (v <=? 65535) then Some (le_bytes 2 v) else None.

(** [struct.pack('l', v)] for one field *)
Definition pack_l (v : Z) : option (list byte) :=
  if (- 2 ^ 31 <=? v) && (v <=? 2 ^ 31 - 1) then Some (le_bytes 4 v) else None.

(** [struct.pack('lll', a, b, c)] *)
Definition pack_lll (a b c : Z) : option (list byte) :=
  match pack_l a, pack_l b, pack_l c with
  | Some x, Some y, Some z => Some (x ++ y ++ z)
  | _, _, _ => None
  end.

(** [struct.unpack('B', s)]: the one element of the tuple. *)
Definition unpack_B (s : list byte) : option Z :=
  match s with
  | [b] => Some (ord b)
  | _ => None
  end.

(** [struct.unpack(32*'B', s)] *)
Definition unpack_32B (s : list byte) : option (list Z) :=
  if (length s =? 32)%nat then Some (map ord s) else None.

(** [struct.unpack('lll', s)] *)
Definition unpack_lll (s : list byte) : option (list Z) :=
  if (length s =? 12)%nat
  then Some [ le_signed32 (firstn 4 s);
              le_signed32 (firstn 4 (skipn 4 s));
              le_signed32 (firstn 4 (skipn 8 s)) ]
  else None.

End Struct.

(** ** numpy's float64 results

    [array(ints) / float64] is a true division that does not raise: a zero
    divisor gives an infinity or a NaN.  The quotient is kept exact here;
    numpy returns the binary64 nearest to it ([um_f64] below). *)

Inductive float64 : Type :=
| finite (q : Q)
| inf (negative : bool)
| nan.

Definition true_divide (n d : Z) : float64 :=
  if d =? 0 then
    (if n =? 0 then nan else inf (n <? 0))
  else finite (Qred (inject_Z n / inject_Z d)).

(** [int(x)] on a float: truncation toward zero. *)
Definition int (x : Q) : Z := Z.quot (Qnum x) (Zpos (Qden x)).

(** Python truthiness of a number, as in [if self.verbose:]. *)
Definition truthy (x : Q) : bool := negb (Qeq_bool x 0).

(** ** The two conversion lines over IEEE binary64

    [int(pos[i]*self.stepMult)] of [gotoPosition] and
    [array(xyz)/self.stepMult] of [getPosition] as the interpreter computes
    them: the product and the quotient are rounded to the nearest binary64,
    and [int] truncates the rounded product. *)








(** ** Exceptions, events and the state the methods run in *)

Inductive exn : Type :=
| SystemExit (code : Z)      (* raised by [sys.exit] *)
| struct_error               (* [struct.error] *)
| portNotOpenError           (* pyserial: I/O on a port that is not open *)
| SerialException            (* pyserial: the port could not be opened *)
| AttributeError             (* an attribute read before it was ever set *)
| IndexError.                (* a sequence index out of range *)

Inductive message : Type :=
| msg_serial                           (* [print self.ser] *)
| msg_no_connection
| msg_ready
| msg_warning
| msg_terminated
| msg_stage_position
| msg_xyz (x y z : float64)
| msg_length_3
| msg_timeout (sec : Z)
| msg_move_completed (sec : Q)
| msg_resetting
| msg_get_status
| msg_statusbytes (t : list Z)
| msg_step_mul (v : Z)
| msg_xspeed (v : Z)
| msg_vscale (v : Z).

Inductive event : Type :=
| ev_open
| ev_close
| ev_write (data : list byte)
| ev_read (size : nat) (data : list byte)
| ev_time (t : Q)
| ev_print (m : message).

(** The [serial.Serial] object.  [arrivals] lists, for each coming call of
    [read], the bytes the device delivers before that call gives up; bytes
    not taken by a call stay in [in_waiting]. *)
Record Serial : Type := mkSerial {
  is_open : bool;
  in_waiting : list byte;
  arrivals : list (list byte)
}.

(** The attributes of a [sutterMP285] instance.  Those assigned only after
    the first lines of [__init__] are optional. *)
Record attrs : Type := mkAttrs {
  verbose : Q;
  timeOut : Z;
  connected : option Z;
  stepMult : option Z;
  vScaleFactor : option Z;
  currentVelocity : option Z
}.

Record state : Type := mkState {
  self : attrs;
  ser : Serial;
  port_present : bool;        (* does [serial.Serial(port='COM3', ...)] succeed *)
  clock : list Q;             (* what the coming calls of [time.time] return *)
  trace : list event          (* oldest first *)
}.

Definition set_self (f : attrs -> attrs) (st : state) : state :=
  mkState (f (self st)) (ser st) (port_present st) (clock st) (trace st).

Definition set_ser (p : Serial) (st : state) : state :=
  mkState (self st) p (port_present st) (clock st) (trace st).

Definition log (e : event) (st : state) : state :=
  mkState (self st) (ser st) (port_present st) (clock st) (trace st ++ [e]).

Definition tick (st : state) : state :=
  mkState (self st) (ser st) (port_present st) (tl (clock st)) (trace st).

Inductive result (A : Type) : Type :=
| Ok (a : A)
| Raise (e : exn).
Arguments Ok {A} a.
Arguments Raise {A} e.

Definition M (A : Type) : Type := state -> result A * state.

Definition ret {A} (a : A) : M A := fun st => (Ok a, st).

Definition bind {A B} (m : M A) (k : A -> M B) : M B :=
  fun st =>
    match m st with
    | (Ok a, st') => k a st'
    | (Raise e, st') => (Raise e, st')
    end.

Definition raise {A} (e : exn) : M A := fun st => (Raise e, st).

Declare Scope py_scope.
Delimit Scope py_scope with py.
Notation "x <- m ;; k" := (bind m (fun x => k))
  (at level 61, m at next level, right associativity) : py_scope.
Notation "m ;; k" := (bind m (fun _ => k))
  (at level 61, right associativity) : py_scope.
Local Open Scope py_scope.

Definition print (m : message) : M unit := fun st => (Ok tt, log (ev_print m) st).

Definition when (b : bool) (m : M unit) : M unit := if b then m else ret tt.

(** A [struct] call that may raise [struct.error]. *)
Definition struct_call {A} (r : option A) : M A :=
  match r with
  | Some a => ret a
  | None => raise struct_error
  end.

(** Reading an attribute that may not exist yet. *)
Definition getattr {A} (f : attrs -> option A) : M A :=
  fun st =>
    match f (self st) with
    | Some a => (Ok a, st)
    | None => (Raise AttributeError, st)
    end.

Definition time_time : M Q :=
  fun st => let t := hd 0%Q (clock st) in (Ok t, log (ev_time t) (tick st)).

Definition sys_exit {A} (code : Z) : M A := raise (SystemExit code).

(** *** The port: [serial.Serial(...)], [write], [read], [close]

    The [serial] package is not part of the repository.  The four
    operations follow its documented behaviour: opening either succeeds or
    raises [SerialException]; [read(size)] returns at most [size] bytes,
    fewer when the timeout strikes first, and never raises on a timeout;
    [write] and [read] on a port that is not open raise the package's
    [portNotOpenError]; [close] may be repeated. *)

Definition Serial_open : M unit :=
  fun st =>
    if port_present st
    then (Ok tt, log ev_open
                   (set_ser (mkSerial true (in_waiting (ser st)) (arrivals (ser st))) st))
    else (Raise SerialException, st).

Definition ser_write (data : list byte) : M unit :=
  fun st =>
    if is_open (ser st) then (Ok tt, log (ev_write data) st)
    else (Raise portNotOpenError, st).

Definition ser_read (size : nat) : M (list byte) :=
  fun st =>
    if is_open (ser st) then
      let avail := in_waiting (ser st) ++ hd [] (arrivals (ser st)) in
      let data := firstn size avail in
      (Ok data,
       log (ev_read size data)
         (set_ser (mkSerial true (skipn size avail) (tl (arrivals (ser st)))) st))
    else (Raise portNotOpenError, st).

Definition ser_close : M unit :=
  fun st =>
    (Ok tt, log ev_close
              (set_ser (mkSerial false (in_waiting (ser st)) (arrivals (ser st))) st)).

(** [s[i]] on a string or a tuple. *)
Definition index {A} (s : list A) (i : nat) : M A :=
  match nth_error s i with
  | Some a => ret a
  | None => raise IndexError
  end.

(** ** The class [sutterMP285] *)

(** The opcodes ['c'], ['m'], ['V'], ['n'], ['o'], ['r'], ['s']. *)
Definition op_c : byte := x63.
Definition op_m : byte := x6d.
Definition op_V : byte := x56.
Definition op_n : byte := x6e.
Definition op_o : byte := x6f.
Definition op_r : byte := x72.
Definition op_s : byte := x73.

(** The pure parts of the methods, named after the variable they compute. *)

(** [getStatus]: the three attributes computed from [statusbytes], the
    tuple of 32 integers that [struct.unpack] returned (so that no index is
    out of range and the default of [nth] is never used). *)
Definition status_stepMult (statusbytes : list Z) : Z :=
  nth 25 statusbytes 0 * 256 + nth 24 statusbytes 0.

Definition status_vScaleFactor (statusbytes : list Z) : Z :=
  if nth 29 statusbytes 0 >? 127 then 50 else 10.

Definition status_currentVelocity (statusbytes : list Z) : Z :=
  Z.land 127 (nth 29 statusbytes 0) * 256 + nth 28 statusbytes 0.

(** [setVelocity]: the two bytes [velb] that follow ['V'].  [Vel] is an
    integer, as at every call in the file, so that [int(Vel)] is [Vel].  The
    one-element tuple of [struct.unpack('B', velb[1])] goes through [double]
    and [+ 128] as its element does, and [struct.pack('B', ...)] takes the
    integer value of the result. *)
Definition setVelocity_velb (Vel vScalF : Z) : M (list byte) :=
  velb <- struct_call (Struct.pack_H Vel) ;;
  if vScalF =? 50 then
    velb_1 <- index velb 1 ;;
    u <- struct_call (Struct.unpack_B [velb_1]) ;;
    let velb2 := u + 128 in
    velb_0 <- index velb 0 ;;
    hi <- struct_call (Struct.pack_B velb2) ;;
    ret (velb_0 :: hi)
  else ret velb.

(** [gotoPosition]: the twelve bytes [xyzb].  The three products are exact
    here; the interpreter rounds each to binary64 before [int] cuts it
    ([steps_f64]), so that the bytes are those of the source where the
    product is a value binary64 holds. *)
Definition gotoPosition_xyzb (pos : list Q) : M (list byte) :=
  p0 <- index pos 0 ;;
  m0 <- getattr stepMult ;;
  p1 <- index pos 1 ;;
  m1 <- getattr stepMult ;;
  p2 <- index pos 2 ;;
  m2 <- getattr stepMult ;;
  struct_call (Struct.pack_lll (int (p0 * inject_Z m0))
                               (int (p1 * inject_Z m1))
                               (int (p2 * inject_Z m2))).

(** [getPosition]: [xyz_um] from the bytes read. *)
Definition getPosition_xyz_um (xyzb : list byte) : M (list float64) :=
  xyz <- struct_call (Struct.unpack_lll (firstn 12 xyzb)) ;;
  m <- getattr stepMult ;;
  ret (map (fun v => true_divide v m) xyz).

Definition updatePanel : M unit :=
  ser_write [op_n; CR] ;;
  _ <- ser_read 1 ;;
  ret tt.

Definition setOrigin : M unit :=
  ser_write [op_o; CR] ;;
  _ <- ser_read 1 ;;
  ret tt.

Definition sendReset : M unit :=
  print msg_resetting ;;
  ser_write [op_r; CR].

Definition setVelocity (Vel vScalF : Z) : M unit :=
  velb <- setVelocity_velb Vel vScalF ;;
  ser_write ([op_V] ++ velb ++ [CR]) ;;
  _ <- ser_read 1 ;;
  ret tt.

Definition getStatus : M (Z * Z * Z) :=
  fun st0 =>
  (when (truthy (verbose (self st0))) (print msg_get_status) ;;
   ser_write [op_s; CR] ;;
   rrr <- ser_read 32 ;;
   _ <- ser_read 1 ;;
   statusbytes <- struct_call (Struct.unpack_32B rrr) ;;
   print (msg_statusbytes statusbytes) ;;
   let sm := status_stepMult statusbytes in
   let vs := status_vScaleFactor statusbytes in
   let cv := status_currentVelocity statusbytes in
   (fun st => (Ok tt, set_self (fun a =>
      mkAttrs (verbose a) (timeOut a) (connected a) (Some sm) (Some vs) (Some cv)) st)) ;;
   when (truthy (verbose (self st0)))
     (print (msg_step_mul sm) ;; print (msg_xspeed cv) ;; print (msg_vscale vs)) ;;
   ret (sm, cv, vs)) st0.

Definition getPosition : M (list float64) :=
  fun st0 =>
  (ser_write [op_c; CR] ;;
   xyzb <- ser_read 13 ;;
   xyz_um <- getPosition_xyz_um xyzb ;;
   when (truthy (verbose (self st0)))
     (print msg_stage_position ;;
      x <- index xyz_um 0 ;; y <- index xyz_um 1 ;; z <- index xyz_um 2 ;;
      print (msg_xyz x y z)) ;;
   ret xyz_um) st0.

(** [gotoPosition] has no [return]: its value is [None], here [tt]. *)
Definition gotoPosition (pos : list Q) : M unit :=
  fun st0 =>
  ((if negb (length pos =? 3)%nat
    then print msg_length_3 ;; sys_exit 1
    else ret tt) ;;
   xyzb <- gotoPosition_xyzb pos ;;
   startt <- time_time ;;
   ser_write ([op_m] ++ xyzb ++ [CR]) ;;
   cr <- ser_read 1 ;;
   endt <- time_time ;;
   if (length cr =? 0)%nat
   then print (msg_timeout (timeOut (self st0)))
   else print (msg_move_completed (endt - startt))) st0.

(** [__init__]: the instance starts with no attribute at all. *)
Definition __init__ : M unit :=
  (fun st => (Ok tt, set_self (fun _ => mkAttrs 1 30 None None None None) st)) ;;
  (fun st =>
     match Serial_open st with
     | (Ok _, st') =>
         ((fun s => (Ok tt, set_self (fun a =>
             mkAttrs (verbose a) (timeOut a) (Some 1)
                     (stepMult a) (vScaleFactor a) (currentVelocity a)) s)) ;;
          when (truthy (verbose (self st'))) (print msg_serial)) st'
     | (Raise SerialException, st') =>
         (print msg_no_connection ;; sys_exit 1) st'
     | (Raise e, st') => (Raise e, st')
     end) ;;
  setVelocity 200 10 ;;
  updatePanel ;;
  r <- getStatus ;;
  let '(stepM, currentV, vScaleF) := r in
  if currentV =? 200 then print msg_ready else print msg_warning.

Definition __del__ : M unit :=
  fun st0 =>
  (ser_close ;;
   when (truthy (verbose (self st0))) (print msg_terminated)) st0.

(** ** Vocabulary for the statements *)

(** The eight public operations of the class on an existing instance
    ([__init__] builds the instance and [__del__] releases it). *)
Inductive operation : Type :=
| op_getPosition
| op_gotoPosition (pos : list Q)
| op_setVelocity (Vel vScalF : Z)
| op_updatePanel
| op_setOrigin
| op_sendReset
| op_getStatus.

Definition call (o : operation) : M unit :=
  match o with
  | op_getPosition => _ <- getPosition ;; ret tt
  | op_gotoPosition pos => gotoPosition pos
  | op_setVelocity Vel vScalF => setVelocity Vel vScalF
  | op_updatePanel => updatePanel
  | op_setOrigin => setOrigin
  | op_sendReset => sendReset
  | op_getStatus => _ <- getStatus ;; ret tt
  end.

(** The command letter of an operation and the size of what follows it. *)
Definition opcode (o : operation) : byte :=
  match o with
  | op_getPosition => op_c
  | op_gotoPosition _ => op_m
  | op_setVelocity _ _ => op_V
  | op_updatePanel => op_n
  | op_setOrigin => op_o
  | op_sendReset => op_r
  | op_getStatus => op_s
  end.

Definition payload_size (o : operation) : nat :=
  match o with
  | op_gotoPosition _ => 12
  | op_setVelocity _ _ => 2
  | _ => 0
  end.

(** The bytes written to the port, call by call. *)
Fixpoint writes (tr : list event) : list (list byte) :=
  match tr with
  | [] => []
  | ev_write data :: tr' => data :: writes tr'
  | _ :: tr' => writes tr'
  end.

(** The traffic on the port: its [write] and [read] calls. *)
Definition is_io (e : event) : bool :=
  match e with
  | ev_write _ | ev_read _ _ => true
  | _ => false
  end.

Definition io_events (tr : list event) : list event := filter is_io tr.

(** A call fails when it ends in an exception. *)
Definition fails {A} (r : result A) : Prop := exists e, r = Raise e.

(** A little-endian signed 32-bit integer, read off four bytes by weight. *)
Definition int32_le (b0 b1 b2 b3 : byte) : Z :=
  let u := ord b0 + 256 * ord b1 + 65536 * ord b2 + 16777216 * ord b3 in
  if u <? 2147483648 then u else u - 4294967296.

(** The range of a signed 32-bit integer. *)
Definition int32 (v : Z) : Prop := - 2147483648 <= v <= 2147483647.

(** The largest finite float64, and the products [pos[i]*self.stepMult]
    that stay within it: a larger one is an infinity, on which [int] raises
    [OverflowError]. *)
Definition f64_max : Z := (2 ^ 53 - 1) * 2 ^ 971.

Definition finite_product (p : Q) (m : Z) : Prop :=
  (Qabs (p * inject_Z m) <= inject_Z f64_max)%Q.

(** The status block printed in the header of the source file. *)
Definition status_sample : list byte :=
  map chr [64; 0; 2; 4; 7; 0; 99; 0; 99; 0; 20; 0; 136; 19; 1; 120;
           112; 23; 16; 39; 80; 0; 0; 0; 25; 0; 4; 0; 200; 0; 84; 1].

(** The same block with byte 28 set to 1 and byte 29 to [0x80 | 44]. *)
Definition status_fast : list byte :=
  firstn 28 status_sample ++ [chr 1; chr (Z.lor 128 44)] ++ skipn 30 status_sample.

(** An instance after a successful start, on an open port whose device
    answers the coming [read] calls with [answers]. *)
Definition connected_state (m : Z) (answers : list (list byte)) (times : list Q) : state :=
  mkState (mkAttrs 1 30 (Some 1) (Some m) (Some 10) (Some 200))
          (mkSerial true [] answers) true times [].

(** The world before [sutterMP285()] is called. *)
Definition initial_state (present : bool) (answers : list (list byte)) : state :=
  mkState (mkAttrs 0 0 None None None None)
          (mkSerial false [] answers) present [] [].

(** * The control panel

    The second half of the file: two global lists, seven entry fields and
    fourteen buttons around the global instance [MP285].  Tkinter is not
    part of the repository.  Of a widget the model keeps what the callbacks
    use: of an entry, what [float(entry.get())] or [int(entry.get())] yields
    ([None] when the text is no number and the conversion raises
    [ValueError]); of the text widgets and of the callbacks' own [print]
    statements, the sequence of texts inserted or printed, kept with their
    data instead of formatted.  [update()] is taken to deliver no event of
    its own. *)

Inductive failure : Type :=
| ValueError
| TypeError
| OverflowError
| IOError
| raised (e : exn).

Inductive outcome (A : Type) : Type :=
| Done (a : A)
| Failed (f : failure).
Arguments Done {A} a.
Arguments Failed {A} f.

Inductive shown : Type :=
| txt_list_empty
| txt_steps (rows : list (nat * list Q * Q))
| txt_processing (i : nat) (pos : list Q) (pause : Q)
| txt_run_completed
| txt_terminated
| txt_moved
| txt_velocity
| txt_position (xyz : list float64)
| txt_origin
| txt_reset
| txt_status (stat : Z * Z * Z)
| out_positions (l : list (list Q))          (* [print listpossave] *)
| out_pauses (l : list Q).                   (* [print listpausesave] *)

Record panel : Type := mkPanel {
  MP285 : state;
  entry1 : option Q;
  entry2 : option Q;
  entry3 : option Q;
  entry4 : option Q;
  entry5 : option Z;
  entry6 : option Z;
  entry7 : option Z;
  listpossave : list (list Q);
  listpausesave : list Q;
  screen : list shown;          (* texts inserted and lines printed, oldest first *)
  slept : list Q                (* the arguments of [time.sleep], oldest first *)
}.

Definition set_MP285 (st : state) (p : panel) : panel :=
  mkPanel st (entry1 p) (entry2 p) (entry3 p) (entry4 p) (entry5 p) (entry6 p)
          (entry7 p) (listpossave p) (listpausesave p) (screen p) (slept p).

Definition set_listpossave (l : list (list Q)) (p : panel) : panel :=
  mkPanel (MP285 p) (entry1 p) (entry2 p) (entry3 p) (entry4 p) (entry5 p)
          (entry6 p) (entry7 p) l (listpausesave p) (screen p) (slept p).

Definition set_listpausesave (l : list Q) (p : panel) : panel :=
  mkPanel (MP285 p) (entry1 p) (entry2 p) (entry3 p) (entry4 p) (entry5 p)
          (entry6 p) (entry7 p) (listpossave p) l (screen p) (slept p).

Definition put (s : shown) (p : panel) : panel :=
  mkPanel (MP285 p) (entry1 p) (entry2 p) (entry3 p) (entry4 p) (entry5 p)
          (entry6 p) (entry7 p) (listpossave p) (listpausesave p)
          (screen p ++ [s]) (slept p).

Definition nap (d : Q) (p : panel) : panel :=
  mkPanel (MP285 p) (entry1 p) (entry2 p) (entry3 p) (entry4 p) (entry5 p)
          (entry6 p) (entry7 p) (listpossave p) (listpausesave p)
          (screen p) (slept p ++ [d]).

(** The user types into the seven entries. *)
Definition fill (e1 e2 e3 e4 : option Q) (e5 e6 e7 : option Z) (p : panel) : panel :=
  mkPanel (MP285 p) e1 e2 e3 e4 e5 e6 e7 (listpossave p) (listpausesave p)
          (screen p) (slept p).

Definition G (A : Type) : Type := panel -> outcome A * panel.

Definition gret {A} (a : A) : G A := fun p => (Done a, p).

Definition gbind {A B} (m : G A) (k : A -> G B) : G B :=
  fun p =>
    match m p with
    | (Done a, p') => k a p'
    | (Failed f, p') => (Failed f, p')
    end.

Definition gfail {A} (f : failure) : G A := fun p => (Failed f, p).

Declare Scope gui_scope.
Delimit Scope gui_scope with gui.
Notation "x <- m ;; k" := (gbind m (fun x => k))
  (at level 61, m at next level, right associativity) : gui_scope.
Notation "m ;; k" := (gbind m (fun _ => k))
  (at level 61, right associativity) : gui_scope.

(** A method of [MP285], called from a callback. *)
Definition driver {A} (m : M A) : G A :=
  fun p =>
    match m (MP285 p) with
    | (Ok a, st') => (Done a, set_MP285 st' p)
    | (Raise e, st') => (Failed (raised e), set_MP285 st' p)
    end.

Definition show (s : shown) : G unit := fun p => (Done tt, put s p).

(** [time.sleep(d)] takes a duration that is not negative and not beyond
    what the timer of the host counts, [ULONG_MAX] milliseconds.  A longer
    one is refused with [OverflowError]; a negative one is taken to be
    refused as [select] refuses it, with [IOError]. *)
Definition time_sleep (d : Q) : G unit :=
  fun p =>
    if Qle_bool 0 d then
      if Qle_bool (d * 1000) 4294967295 then (Done tt, nap d p)
      else (Failed OverflowError, p)
    else (Failed IOError, p).

(** [float(entry.get())] and [int(entry.get())]. *)
Definition float_of (e : panel -> option Q) : G Q :=
  fun p => match e p with
           | Some q => (Done q, p)
           | None => (Failed ValueError, p)
           end.

Definition int_of (e : panel -> option Z) : G Z :=
  fun p => match e p with
           | Some z => (Done z, p)
           | None => (Failed ValueError, p)
           end.

(** *** Python's lists *)

(** The place an index denotes in a list, negative indices counting from
    the end; [None] when it is out of range. *)
Definition py_index {A} (j : Z) (l : list A) : option nat :=
  let n := Z.of_nat (length l) in
  let k := if j <? 0 then j + n else j in
  if (0 <=? k) && (k <? n) then Some (Z.to_nat k) else None.

(** [l[j]] *)
Definition py_getitem {A} (j : Z) (l : list A) : option A :=
  match py_index j l with
  | Some k => nth_error l k
  | None => None
  end.

(** [del l[j]] *)
Definition py_del {A} (j : Z) (l : list A) : option (list A) :=
  match py_index j l with
  | Some k => Some (firstn k l ++ skipn (S k) l)
  | None => None
  end.

(** Where [l.insert(j, x)] puts [x]: an index beyond either end is brought
    back to it. *)
Definition insert_at {A} (j : Z) (x : A) (l : list A) : list A :=
  let n := Z.of_nat (length l) in
  let k := if j <? 0 then Z.max 0 (j + n) else Z.min j n in
  firstn (Z.to_nat k) l ++ x :: skipn (Z.to_nat k) l.

(** An index is converted to [Py_ssize_t] before it is used, which fails
    with [OverflowError] when it does not fit; the 32 bits of the smaller
    build are taken.  No list is longer than [Py_ssize_t] counts, so an
    index within the length of the list always fits. *)
Definition Py_ssize_t_fits {A} (j : Z) (l : list A) : bool :=
  ((- 2 ^ 31 <=? j) && (j <=? 2 ^ 31 - 1)) || (Z.abs j <=? Z.of_nat (length l)).

(** [l.insert(j, x)]; [None] stands for [OverflowError]. *)
Definition py_insert {A} (j : Z) (x : A) (l : list A) : option (list A) :=
  if Py_ssize_t_fits j l then Some (insert_at j x l) else None.

(** [tuple(map(operator.add, a, b))]: Python 2 pads the shorter argument
    with [None], which [operator.add] refuses with [TypeError]. *)
Fixpoint map_add (a b : list Q) : option (list Q) :=
  match a, b with
  | [], [] => Some []
  | x :: a', y :: b' => option_map (cons (x + y)%Q) (map_add a' b')
  | _, _ => None
  end.

Definition getitem {A} (l : panel -> list A) (j : Z) : G A :=
  fun p => match py_getitem j (l p) with
           | Some a => (Done a, p)
           | None => (Failed (raised IndexError), p)
           end.

(** *** The callbacks *)

(** The loop over [entries = [entry1, entry2, entry3]] that builds [tup]. *)
Definition entries_tup : G (list Q) :=
  (x <- float_of entry1 ;;
   y <- float_of entry2 ;;
   z <- float_of entry3 ;;
   gret [x; y; z])%gui.

(** The lines of [textdisp]: one for each index of [listpossave], with the
    pause of the same index. *)
Fixpoint step_rows (i : nat) (poss : list (list Q)) (pauses : list Q)
  : option (list (nat * list Q * Q)) :=
  match poss with
  | [] => Some []
  | pos :: poss' =>
      match pauses with
      | pause :: pauses' =>
          option_map (cons (i, pos, pause)) (step_rows (S i) poss' pauses')
      | [] => None
      end
  end.

Definition textdisp : G unit :=
  fun p =>
    match listpossave p with
    | [] => show txt_list_empty p
    | _ :: _ =>
        match step_rows 0 (listpossave p) (listpausesave p) with
        | Some rows => show (txt_steps rows) p
        | None => (Failed (raised IndexError), p)
        end
    end.

Definition textdisp2 (s : shown) : G unit := show s.

Definition savepos : G unit :=
  (pause <- float_of entry4 ;;
   (fun p => (Done tt, set_listpausesave (listpausesave p ++ [pause]) p)) ;;
   tup <- entries_tup ;;
   (fun p =>
      match listpossave p with
      | [] => (Done tt, set_listpossave (listpossave p ++ [tup]) p)
      | _ :: _ =>
          (prev <- getitem listpossave (-1) ;;
           fun p' =>
             match map_add prev tup with
             | Some s => (Done tt, set_listpossave (listpossave p' ++ [s]) p')
             | None => (Failed TypeError, p')
             end) p
      end) ;;
   (fun p => show (out_positions (listpossave p)) p) ;;
   textdisp)%gui.

Fixpoint multirun_loop (todo : nat) (i : nat) : G unit :=
  match todo with
  | O => gret tt
  | S todo' =>
      (pos <- getitem listpossave (Z.of_nat i) ;;
       pause <- getitem listpausesave (Z.of_nat i) ;;
       show (txt_processing i pos pause) ;;
       pos' <- getitem listpossave (Z.of_nat i) ;;
       driver (gotoPosition pos') ;;
       pause' <- getitem listpausesave (Z.of_nat i) ;;
       time_sleep pause' ;;
       (fun p => if Z.of_nat i =? Z.of_nat (length (listpossave p)) - 1
                 then show txt_run_completed p
                 else (Done tt, p)) ;;
       multirun_loop todo' (S i))%gui
  end.

Definition multirun : G unit :=
  fun p =>
    match listpossave p with
    | [] => show txt_list_empty p
    | _ :: _ => multirun_loop (length (listpossave p)) 0 p
    end.

Definition clearlist : G unit :=
  ((fun p => (Done tt, set_listpausesave [] (set_listpossave [] p))) ;;
   textdisp)%gui.

Definition listinsert : G unit :=
  fun p =>
    match listpossave p with
    | [] => (Done tt, p)
    | _ :: _ =>
        (j <- int_of entry5 ;;
         tup <- entries_tup ;;
         (fun q => match py_insert j tup (listpossave q) with
                   | Some l => (Done tt, set_listpossave l q)
                   | None => (Failed OverflowError, q)
                   end) ;;
         pause <- float_of entry4 ;;
         (fun q => match py_insert j pause (listpausesave q) with
                   | Some l => (Done tt, set_listpausesave l q)
                   | None => (Failed OverflowError, q)
                   end) ;;
         (fun q => show (out_positions (listpossave q)) q) ;;
         (fun q => show (out_pauses (listpausesave q)) q) ;;
         textdisp)%gui p
    end.

Definition removeelem : G unit :=
  (j <- int_of entry5 ;;
   fun p =>
     if j <? Z.of_nat (length (listpossave p)) then
       ((fun q => match py_del j (listpossave q) with
                  | Some l => (Done tt, set_listpossave l q)
                  | None => (Failed (raised IndexError), q)
                  end) ;;
        (fun q => match py_del j (listpausesave q) with
                  | Some l => (Done tt, set_listpausesave l q)
                  | None => (Failed (raised IndexError), q)
                  end) ;;
        (fun q => show (out_positions (listpossave q)) q) ;;
        textdisp) p
     else (Done tt, p))%gui.

Definition disconnect : G unit :=
  (driver __del__ ;; textdisp2 txt_terminated)%gui.

Definition movearun : G unit :=
  (tupentries <- entries_tup ;;
   driver (gotoPosition tupentries) ;;
   textdisp2 txt_moved)%gui.

Definition setVel : G unit :=
  (v <- int_of entry6 ;;
   s <- int_of entry7 ;;
   driver (setVelocity v s) ;;
   textdisp2 txt_velocity)%gui.

Definition getposdisp : G unit :=
  (stri <- driver getPosition ;; textdisp2 (txt_position stri))%gui.

Definition setorig : G unit :=
  (driver setOrigin ;; textdisp2 txt_origin)%gui.

Definition resetsutter : G unit :=
  (textdisp2 txt_reset ;; driver sendReset)%gui.

Definition dispgetstat : G unit :=
  (stat <- driver getStatus ;; textdisp2 (txt_status stat))%gui.

(** The fourteen buttons and the callback each is created with. *)
Inductive button : Type :=
| getstat | findpos | gotopos | disconnect_link | origin | reset
| setvelocity | updatepanel | clearlistbutton | listshowbutton
| savebutton | runbutton | insertelem | removeelement.

Definition press (b : button) : G unit :=
  match b with
  | getstat => dispgetstat
  | findpos => getposdisp
  | gotopos => movearun
  | disconnect_link => disconnect
  | origin => setorig
  | reset => resetsutter
  | setvelocity => setVel
  | updatepanel => driver updatePanel
  | clearlistbutton => clearlist
  | listshowbutton => textdisp
  | savebutton => savepos
  | runbutton => multirun
  | insertelem => listinsert
  | removeelement => removeelem
  end.

(** *** Vocabulary for the statements about the panel *)

(** Every saved position has three coordinates. *)
Definition triples (p : panel) : Prop :=
  Forall (fun t : list Q => length t = 3%nat) (listpossave p).

(** The two lists go index by index. *)
Definition aligned (p : panel) : Prop :=
  length (listpausesave p) = length (listpossave p).




(** The user enters a triple and a pause and presses Save, once for each
    element of [inputs]. *)
Definition save_all (inputs : list (Q * Q * Q * Q)) (p : panel) : panel :=
  fold_left
    (fun q '(x, y, z, pause) =>
       snd (press savebutton
              (fill (Some x) (Some y) (Some z) (Some pause)
                    (entry5 q) (entry6 q) (entry7 q) q)))
    inputs p.

(** The running totals of a sequence of triples: the first as entered, each
    later one added to the total before it. *)
Fixpoint totals_from (prev : Q * Q * Q) (steps : list (Q * Q * Q * Q))
  : list (list Q) :=
  match steps with
  | [] => []
  | (x, y, z, _) :: steps' =>
      let '(a, b, c) := prev in
      [a + x; b + y; c + z]%Q :: totals_from ((a + x)%Q, (b + y)%Q, (c + z)%Q) steps'
  end.

Definition totals (steps : list (Q * Q * Q * Q)) : list (list Q) :=
  match steps with
  | [] => []
  | (x, y, z, _) :: steps' => [x; y; z] :: totals_from (x, y, z) steps'
  end.

(** A panel right after the program has started, around a given instance. *)
Definition fresh_panel (st : state) : panel :=
  mkPanel st None None None None None None None [] [] [] [].

(** A panel in use: two positions saved, numbers in all the entries, and a
    device that acknowledges the next move and not the one after. *)
Definition sample_panel : panel :=
  mkPanel (connected_state 25 [[CR]; []] [10; 11; 20; 22]%Q)
          (Some 7%Q) (Some 8%Q) (Some 9%Q) (Some 1%Q)
          (Some 1) (Some 300) (Some 50)
          [[1; 2; 3]%Q; [11; 22; 33]%Q] [5; 6]%Q [] [].

(** ** Tactics for running the methods *)

(** Unfolds the monad and the port operations and projects the records. *)
Ltac run_io :=
  repeat progress
    (unfold bind, when, ser_write, ser_read, ser_close, struct_call, getattr,
       print, ret, raise, sys_exit, time_time, index;
     cbn [ser is_open self verbose timeOut stepMult log tick set_ser set_self
          in_waiting arrivals port_present clock trace fst snd nth_error]).

(** A state whose [stepMult] attribute is known. *)
Ltac calibrated st H :=
  destruct st as [[? ? ? ? ? ?] ? ? ? ?];
  cbn [self stepMult] in H; rewrite H in *; clear H.

(** Twelve bytes, named. *)
Ltac twelve b H :=
  do 12 (destruct b as [|? b]; [discriminate H|]);
  destruct b; [clear H | discriminate H].


(** Case analysis on every test a run meets. *)
Ltac crunch :=
  repeat (run_io; cbn [call];
          match goal with
          | |- context [match ?x with _ => _ end] =>
              lazymatch type of x with
              | bool => destruct x
              | option _ => destruct x
              | list _ => destruct x
              end
          end);
  run_io.

(** * Properties *)

(** ** Bytes and the [struct] codec *)

Lemma ord_range (b : byte) : 0 <= ord b <= 255.
Proof.
  unfold ord. pose proof (Byte.to_N_bounded b). lia.
Qed.

Lemma ord_chr (z : Z) : 0 <= z <= 255 -> ord (chr z) = z.
Proof.
  intros Hz. unfold ord, chr.
  rewrite Z.mod_small by lia.
  destruct (Byte.of_N (Z.to_N z)) as [b|] eqn:E.
  - apply Byte.to_of_N in E. rewrite E. lia.
  - apply Byte.of_N_None_iff in E. lia.
Qed.

Lemma chr_ord (b : byte) : chr (ord b) = b.
Proof.
  unfold chr. pose proof (ord_range b) as Hb.
  rewrite Z.mod_small by lia. unfold ord.
  rewrite N2Z.id, Byte.of_to_N. reflexivity.
Qed.

Lemma land_255 (v : Z) : Z.land v 255 = v mod 256.
Proof. change 255 with (Z.ones 8). rewrite Z.land_ones by lia. reflexivity. Qed.

Lemma shiftr_8 (v : Z) : Z.shiftr v 8 = v / 256.
Proof. rewrite Z.shiftr_div_pow2 by lia. reflexivity. Qed.

Lemma ord_low_byte (v : Z) : ord (chr (Z.land v 255)) = v mod 256.
Proof.
  rewrite land_255. apply ord_chr.
  pose proof (Z.mod_pos_bound v 256). lia.
Qed.

Lemma lor_shiftl_8 (a b : Z) :
  0 <= a <= 255 -> Z.lor a (Z.shiftl b 8) = a + 256 * b.
Proof.
  intros Ha.
  assert (Hdisj : Z.land a (Z.shiftl b 8) = 0).
  { apply Z.bits_inj'. intros n Hn.
    rewrite Z.land_spec, Z.bits_0.
    destruct (Z.ltb_spec n 8) as [Hlt|Hge].
    - rewrite Z.shiftl_spec_low by lia. apply andb_false_r.
    - assert (Z.testbit a n = false) as ->; [|reflexivity].
      destruct (Z.eq_dec a 0) as [->|Hnz]; [apply Z.bits_0|].
      apply Z.bits_above_log2; [lia|].
      assert (Z.log2 a < 8); [|lia].
      apply Z.log2_lt_pow2; lia. }
  rewrite <- Z.lxor_lor by exact Hdisj.
  rewrite <- Z.add_nocarry_lxor by exact Hdisj.
  rewrite Z.shiftl_mul_pow2 by lia. change (2 ^ 8) with 256. lia.
Qed.

Lemma le_unsigned_cons (b : byte) (s : list byte) :
  Struct.le_unsigned (b :: s) = ord b + 256 * Struct.le_unsigned s.
Proof.
  unfold Struct.le_unsigned. cbn [fold_right].
  apply lor_shiftl_8, ord_range.
Qed.

Lemma le_unsigned_nil : Struct.le_unsigned [] = 0.
Proof. reflexivity. Qed.

Lemma testbit_31 (u : Z) :
  0 <= u < 4294967296 -> Z.testbit u 31 = negb (u <? 2147483648).
Proof.
  intros Hu. rewrite Z.testbit_eqb by lia.
  change (2 ^ 31) with 2147483648.
  destruct (Z.ltb_spec u 2147483648) as [Hlt|Hge]; cbn [negb].
  - rewrite Z.div_small by lia. reflexivity.
  - assert (u / 2147483648 = 1) as ->; [|reflexivity].
    symmetry. apply Z.div_unique with (r := u - 2147483648); lia.
Qed.

Lemma le_signed32_weights (b0 b1 b2 b3 : byte) :
  Struct.le_signed32 [b0; b1; b2; b3] = int32_le b0 b1 b2 b3.
Proof.
  unfold Struct.le_signed32, int32_le.
  rewrite !le_unsigned_cons, le_unsigned_nil.
  pose proof (ord_range b0). pose proof (ord_range b1).
  pose proof (ord_range b2). pose proof (ord_range b3).
  replace (ord b0 + 256 * (ord b1 + 256 * (ord b2 + 256 * (ord b3 + 256 * 0))))
    with (ord b0 + 256 * ord b1 + 65536 * ord b2 + 16777216 * ord b3) by lia.
  cbv zeta. rewrite testbit_31 by lia.
  change (2 ^ 32) with 4294967296.
  destruct (_ <? _); reflexivity.
Qed.


Lemma testbit7_byte (v : Z) : 0 <= v <= 255 -> Z.testbit v 7 = (v >? 127).
Proof.
  intros Hv.
  rewrite Z.testbit_eqb by lia.
  change (2 ^ 7) with 128.
  destruct (Z.gtb_spec v 127) as [Hgt|Hle].
  - assert (v / 128 = 1) as -> by (symmetry; apply Z.div_unique with (r := v - 128); lia).
    reflexivity.
  - rewrite Z.div_small by lia. reflexivity.
Qed.

Lemma nth_map_ord (i : nat) (s : list byte) :
  nth i (map ord s) 0 = ord (nth i s x00).
Proof. change 0 with (ord x00). apply map_nth. Qed.

(** ** The status block *)

(** C1.  For every 32-byte status block [b] that the status read of
    [getStatus] returns, the call yields
    stepMultiplier = b[24] + b[25]*256, velocityScaleFactor = 50 if bit 7 of
    b[29] is set and 10 otherwise, and
    currentVelocity = (b[29] & 0x7F)*256 + b[28], and caches the three
    values in the instance. *)
Theorem getStatus_decode (b : list byte) (st : state) :
  length b = 32%nat ->
  is_open (ser st) = true ->
  firstn 32 (in_waiting (ser st) ++ hd [] (arrivals (ser st))) = b ->
  let sm := ord (nth 24 b x00) + ord (nth 25 b x00) * 256 in
  let vs := if Z.testbit (ord (nth 29 b x00)) 7 then 50 else 10 in
  let cv := Z.land (ord (nth 29 b x00)) 127 * 256 + ord (nth 28 b x00) in
  fst (getStatus st) = Ok (sm, cv, vs) /\
  stepMult (self (snd (getStatus st))) = Some sm /\
  currentVelocity (self (snd (getStatus st))) = Some cv /\
  vScaleFactor (self (snd (getStatus st))) = Some vs.
Proof.
  intros Hlen Hopen Hread sm vs cv.
  destruct st as [a [o w rs] pp clk tr].
  cbn [ser is_open in_waiting arrivals] in Hopen, Hread. subst o.
  assert (Hsm : status_stepMult (map ord b) = sm).
  { unfold status_stepMult, sm. rewrite !nth_map_ord. lia. }
  assert (Hcv : status_currentVelocity (map ord b) = cv).
  { unfold status_currentVelocity, cv.
    rewrite !nth_map_ord, Z.land_comm. reflexivity. }
  assert (Hvs : status_vScaleFactor (map ord b) = vs).
  { unfold status_vScaleFactor, vs.
    rewrite nth_map_ord, testbit7_byte by apply ord_range. reflexivity. }
  unfold getStatus. run_io.
  destruct (truthy (verbose a)); run_io; rewrite Hread;
    unfold Struct.unpack_32B; rewrite Hlen; cbn [Nat.eqb]; run_io.
  all: cbn; rewrite Hsm, Hcv, Hvs; auto.
Qed.

(** The fixture with b[28] = 1 and b[29] = 0x80|44: velocity 11265 at scale
    factor 50. *)
Lemma getStatus_decode_fixture :
  fst (getStatus (connected_state 25 [status_fast; [CR]] [])) = Ok (25, 11265, 50).
Proof.
  exact (proj1 (getStatus_decode status_fast
                  (connected_state 25 [status_fast; [CR]] [])
                  eq_refl eq_refl eq_refl)).
Defined.

(** The block printed in the header of the source file: 25, 200, 10. *)
Example getStatus_sample :
  fst (getStatus (connected_state 1 [status_sample; [CR]] [])) = Ok (25, 200, 10).
Proof. reflexivity. Qed.

(** ** Setting the velocity *)

Lemma writes_app (tr1 tr2 : list event) :
  writes (tr1 ++ tr2) = writes tr1 ++ writes tr2.
Proof.
  induction tr1 as [|e tr1 IH]; [reflexivity|].
  destruct e; cbn [app writes]; rewrite IH; reflexivity.
Qed.

Lemma pack_H_in_range (v : Z) :
  0 <= v <= 65535 ->
  Struct.pack_H v = Some [chr (Z.land v 255); chr (Z.land (Z.shiftr v 8) 255)].
Proof.
  intros Hv. unfold Struct.pack_H.
  destruct (Z.leb_spec 0 v); [|lia].
  destruct (Z.leb_spec v 65535); [|lia].
  reflexivity.
Qed.

Lemma pack_H_out_of_range (v : Z) :
  v < 0 \/ 65535 < v -> Struct.pack_H v = None.
Proof.
  intros Hv. unfold Struct.pack_H.
  destruct (Z.leb_spec 0 v); destruct (Z.leb_spec v 65535);
    cbn [andb]; try reflexivity; lia.
Qed.

Lemma pack_B_in_range (v : Z) :
  0 <= v <= 255 -> Struct.pack_B v = Some [chr (Z.land v 255)].
Proof.
  intros Hv. unfold Struct.pack_B.
  destruct (Z.leb_spec 0 v); [|lia].
  destruct (Z.leb_spec v 255); [|lia].
  reflexivity.
Qed.

Lemma pack_B_out_of_range (v : Z) : 255 < v -> Struct.pack_B v = None.
Proof.
  intros Hv. unfold Struct.pack_B.
  destruct (Z.leb_spec 0 v); destruct (Z.leb_spec v 255);
    cbn [andb]; try reflexivity; lia.
Qed.

(** The high byte of a 16-bit value, as [setVelocity] reads it back. *)
Lemma ord_high_byte (v : Z) :
  0 <= v <= 65535 -> ord (chr (Z.land (Z.shiftr v 8) 255)) = v / 256.
Proof.
  intros Hv. rewrite ord_low_byte, shiftr_8.
  apply Z.mod_small. Z.div_mod_to_equations. lia.
Qed.

(** What [velb] is, case by case. *)
Lemma setVelocity_velb_plain (Vel vScalF : Z) (st : state) :
  0 <= Vel <= 65535 -> vScalF <> 50 ->
  setVelocity_velb Vel vScalF st =
    (Ok [chr (Z.land Vel 255); chr (Z.land (Z.shiftr Vel 8) 255)], st).
Proof.
  intros HV Hs. unfold setVelocity_velb.
  rewrite pack_H_in_range by exact HV.
  destruct (Z.eqb_spec vScalF 50) as [E|_]; [contradiction|].
  reflexivity.
Qed.

Lemma setVelocity_velb_fine (Vel : Z) (st : state) :
  0 <= Vel <= 32767 ->
  setVelocity_velb Vel 50 st =
    (Ok [chr (Z.land Vel 255); chr (Z.land (Vel / 256 + 128) 255)], st).
Proof.
  intros HV. unfold setVelocity_velb.
  rewrite pack_H_in_range by lia.
  run_io. cbn [Z.eqb Pos.eqb nth_error Struct.unpack_B].
  rewrite ord_high_byte by lia.
  rewrite pack_B_in_range by (Z.div_mod_to_equations; lia).
  reflexivity.
Qed.

Lemma setVelocity_velb_overflow (Vel : Z) (st : state) :
  32767 < Vel <= 65535 ->
  setVelocity_velb Vel 50 st = (Raise struct_error, st).
Proof.
  intros HV. unfold setVelocity_velb.
  rewrite pack_H_in_range by lia.
  run_io. cbn [Z.eqb Pos.eqb nth_error Struct.unpack_B].
  rewrite ord_high_byte by lia.
  rewrite pack_B_out_of_range by (Z.div_mod_to_equations; lia).
  reflexivity.
Qed.

Lemma setVelocity_velb_unpackable (Vel vScalF : Z) (st : state) :
  Vel < 0 \/ 65535 < Vel ->
  setVelocity_velb Vel vScalF st = (Raise struct_error, st).
Proof.
  intros HV. unfold setVelocity_velb.
  rewrite pack_H_out_of_range by exact HV. reflexivity.
Qed.

(** C2.  For every magnitude in [0, 32767] and scale factor in {10, 50},
    [setVelocity] puts exactly two payload bytes between ['V'] and the
    terminator: the magnitude as an unsigned little-endian 16-bit integer,
    with 128 added to the second byte (its most significant bit set) when
    the scale factor is 50, and that bit clear when it is 10. *)
Theorem setVelocity_encode (Vel vScalF : Z) (st : state) :
  0 <= Vel <= 32767 ->
  vScalF = 10 \/ vScalF = 50 ->
  is_open (ser st) = true ->
  exists lo hi : byte,
    fst (setVelocity_velb Vel vScalF st) = Ok [lo; hi] /\
    ord lo = Vel mod 256 /\
    ord hi = Vel / 256 + (if vScalF =? 50 then 128 else 0) /\
    Z.testbit (ord hi) 7 = (vScalF =? 50) /\
    fst (setVelocity Vel vScalF st) = Ok tt /\
    writes (trace (snd (setVelocity Vel vScalF st))) =
      writes (trace st) ++ [[op_V; lo; hi; CR]].
Proof.
  intros HV Hs Hopen.
  assert (Hq : 0 <= Vel / 256 <= 127) by (Z.div_mod_to_equations; lia).
  destruct st as [a [o w rs] pp clk tr].
  cbn [ser is_open] in Hopen. subst o.
  destruct Hs as [-> | ->].
  - exists (chr (Z.land Vel 255)), (chr (Z.land (Z.shiftr Vel 8) 255)).
    unfold setVelocity. run_io.
    rewrite setVelocity_velb_plain by lia. run_io.
    cbn [Z.eqb Pos.eqb app].
    rewrite ord_low_byte, ord_high_byte by lia.
    rewrite testbit7_byte by lia.
    rewrite !writes_app. cbn [writes]. rewrite !app_nil_r.
    repeat split; try reflexivity; try lia.
  - exists (chr (Z.land Vel 255)), (chr (Z.land (Vel / 256 + 128) 255)).
    unfold setVelocity. run_io.
    rewrite setVelocity_velb_fine by lia. run_io.
    cbn [Z.eqb Pos.eqb app].
    rewrite !ord_low_byte.
    rewrite (Z.mod_small (Vel / 256 + 128)) by lia.
    rewrite testbit7_byte by lia.
    rewrite !writes_app. cbn [writes]. rewrite !app_nil_r.
    repeat split; try reflexivity.
    destruct (Z.gtb_spec (Vel / 256 + 128) 127); [reflexivity | lia].
Qed.

(** Velocity 300 at scale factor 50 goes out as 'V', 0x2C, 0x81, CR. *)
Lemma setVelocity_encode_300_50 :
  exists lo hi : byte,
    fst (setVelocity_velb 300 50 (connected_state 25 [[CR]] [])) = Ok [lo; hi] /\
    ord lo = 300 mod 256 /\
    ord hi = 300 / 256 + 128 /\
    Z.testbit (ord hi) 7 = true /\
    fst (setVelocity 300 50 (connected_state 25 [[CR]] [])) = Ok tt /\
    writes (trace (snd (setVelocity 300 50 (connected_state 25 [[CR]] [])))) =
      [[op_V; lo; hi; CR]].
Proof.
  apply (setVelocity_encode 300 50 (connected_state 25 [[CR]] [])).
  - lia.
  - right; reflexivity.
  - reflexivity.
Defined.

(** A scale factor outside {10, 50} is not refused: the method tests
    [vScalF == 50] only, and 20 is sent as 10 is. *)
Example setVelocity_200_20_run :
  fst (setVelocity 200 20 (connected_state 25 [[CR]] [])) = Ok tt /\
  writes (trace (snd (setVelocity 200 20 (connected_state 25 [[CR]] [])))) =
    [[op_V; xc8; x00; CR]].
Proof. split; reflexivity. Qed.

(** A magnitude above 32767 with a scale factor other than 50 is not
    refused either, although bits 14 to 0 are all the velocity has (lines
    146 and 147): [setVelocity(40000, 10)] puts 'V', 0x40, 0x9C, CR on the
    wire, bit 15 set, which is the frame of 7232 at scale factor 50. *)
Example setVelocity_40000_10_run :
  fst (setVelocity 40000 10 (connected_state 25 [[CR]] [])) = Ok tt /\
  writes (trace (snd (setVelocity 40000 10 (connected_state 25 [[CR]] [])))) =
    [[op_V; x40; x9c; CR]] /\
  writes (trace (snd (setVelocity 7232 50 (connected_state 25 [[CR]] [])))) =
    [[op_V; x40; x9c; CR]].
Proof. repeat split; reflexivity. Qed.

(** C3 as stated does not hold: with the scale factor 20, outside {10, 50},
    [setVelocity(200, 20)] neither fails nor leaves the port untouched. *)
Lemma setVelocity_200_20_not_rejected :
  ~ (fails (fst (setVelocity 200 20 (connected_state 25 [[CR]] []))) /\
     writes (trace (snd (setVelocity 200 20 (connected_state 25 [[CR]] [])))) =
       writes (trace (connected_state 25 [[CR]] []))).
Proof.
  intros [[e He] _]. vm_compute in He. discriminate He.
Qed.

(** C3, amended.  [setVelocity] is rejected, with [struct.error] and before
    anything is written, by the two [struct.pack] calls: when the magnitude
    is outside [0, 65535], and when the scale factor is 50 and the magnitude
    exceeds 32767.  A scale factor other than 50 is not rejected but treated
    as 10: a magnitude in [0, 32767] is sent with the scale bit clear. *)
Theorem setVelocity_rejection (Vel vScalF : Z) (st : state) :
  (Vel < 0 \/ 65535 < Vel \/ (vScalF = 50 /\ 32767 < Vel) ->
   setVelocity Vel vScalF st = (Raise struct_error, st)) /\
  (0 <= Vel <= 32767 -> vScalF <> 50 -> is_open (ser st) = true ->
   fst (setVelocity Vel vScalF st) = Ok tt /\
   writes (trace (snd (setVelocity Vel vScalF st))) =
     writes (trace st) ++ [[op_V; chr (Vel mod 256); chr (Vel / 256); CR]] /\
   Z.testbit (ord (chr (Vel / 256))) 7 = false).
Proof.
  split.
  - intros H. unfold setVelocity. unfold bind at 1.
    assert (Hvelb : setVelocity_velb Vel vScalF st = (Raise struct_error, st)).
    { destruct (Z_lt_dec Vel 0) as [Hneg|Hpos];
        [apply setVelocity_velb_unpackable; lia|].
      destruct (Z_lt_dec 65535 Vel) as [Hbig|Hsmall];
        [apply setVelocity_velb_unpackable; lia|].
      destruct H as [H|[H|[-> H]]]; try lia.
      apply setVelocity_velb_overflow; lia. }
    rewrite Hvelb. reflexivity.
  - intros HV Hs Hopen.
    assert (Hq : 0 <= Vel / 256 <= 127) by (Z.div_mod_to_equations; lia).
    destruct st as [a [o w rs] pp clk tr].
    cbn [ser is_open] in Hopen. subst o.
    unfold setVelocity. run_io.
    rewrite setVelocity_velb_plain by (try assumption; lia). run_io.
    rewrite writes_app. cbn [app writes]. rewrite writes_app.
    cbn [writes]. rewrite app_nil_r.
    rewrite shiftr_8, !land_255.
    rewrite (Z.mod_small (Vel / 256)) by lia.
    repeat split.
    rewrite ord_chr by lia.
    rewrite testbit7_byte by lia.
    destruct (Z.gtb_spec (Vel / 256) 127); [lia | reflexivity].
Qed.

(** Both halves at work: 70000 cannot be packed at all, 40000 cannot take
    the scale bit, and 200 at the scale factor 20 is sent as at 10. *)
Lemma setVelocity_rejection_cases :
  setVelocity 70000 10 (connected_state 25 [[CR]] []) =
    (Raise struct_error, connected_state 25 [[CR]] []) /\
  setVelocity 40000 50 (connected_state 25 [[CR]] []) =
    (Raise struct_error, connected_state 25 [[CR]] []) /\
  fst (setVelocity 200 20 (connected_state 25 [[CR]] [])) = Ok tt /\
  writes (trace (snd (setVelocity 200 20 (connected_state 25 [[CR]] [])))) =
    writes (trace (connected_state 25 [[CR]] [])) ++
    [[op_V; chr (200 mod 256); chr (200 / 256); CR]] /\
  Z.testbit (ord (chr (200 / 256))) 7 = false.
Proof.
  split; [|split].
  - apply (proj1 (setVelocity_rejection 70000 10 (connected_state 25 [[CR]] []))).
    right; left; lia.
  - apply (proj1 (setVelocity_rejection 40000 50 (connected_state 25 [[CR]] []))).
    right; right; split; [reflexivity | lia].
  - apply (proj2 (setVelocity_rejection 200 20 (connected_state 25 [[CR]] []))).
    + lia.
    + discriminate.
    + reflexivity.
Defined.

(** ** Positions: the ['lll'] codec and the division by the step multiplier *)


Lemma pack_l_out_of_range (v : Z) : ~ int32 v -> Struct.pack_l v = None.
Proof.
  unfold int32, Struct.pack_l. intros Hv.
  assert (H31 : 2 ^ 31 = 2147483648) by reflexivity.
  destruct (Z.leb_spec (- 2 ^ 31) v);
    destruct (Z.leb_spec v (2 ^ 31 - 1)); cbn [andb]; try reflexivity; lia.
Qed.

Lemma unpack_lll_12 (b0 b1 b2 b3 b4 b5 b6 b7 b8 b9 b10 b11 : byte) :
  Struct.unpack_lll [b0; b1; b2; b3; b4; b5; b6; b7; b8; b9; b10; b11] =
    Some [int32_le b0 b1 b2 b3; int32_le b4 b5 b6 b7; int32_le b8 b9 b10 b11].
Proof.
  unfold Struct.unpack_lll. cbn [length Nat.eqb firstn skipn].
  rewrite !le_signed32_weights. reflexivity.
Qed.

Lemma unpack_lll_short (s : list byte) :
  (length s < 12)%nat -> Struct.unpack_lll s = None.
Proof.
  intros H. unfold Struct.unpack_lll.
  destruct (Nat.eqb_spec (length s) 12); [lia | reflexivity].
Qed.


Lemma true_divide_finite (n d : Z) :
  d <> 0 -> true_divide n d = finite (Qred (inject_Z n / inject_Z d)).
Proof.
  intros Hd. unfold true_divide.
  destruct (Z.eqb_spec d 0); [contradiction | reflexivity].
Qed.

(** The decoding line of [getPosition] on a response that starts with twelve
    bytes [b]. *)
Lemma getPosition_xyz_um_12 (b t : list byte) (m : Z) (st : state) :
  length b = 12%nat ->
  stepMult (self st) = Some m ->
  getPosition_xyz_um (b ++ t) st =
    (Ok (map (fun v => true_divide v m)
           [ int32_le (nth 0 b x00) (nth 1 b x00) (nth 2 b x00) (nth 3 b x00);
             int32_le (nth 4 b x00) (nth 5 b x00) (nth 6 b x00) (nth 7 b x00);
             int32_le (nth 8 b x00) (nth 9 b x00) (nth 10 b x00) (nth 11 b x00) ]),
     st).
Proof.
  intros Hlen Hm. twelve b Hlen.
  unfold getPosition_xyz_um. cbn [app firstn nth].
  rewrite unpack_lll_12. run_io. rewrite Hm. reflexivity.
Qed.

(** C4.  For every 12-byte position response [b] (followed or not by the
    terminator), [getPosition] reads the bytes as three little-endian signed
    32-bit integers and divides each by the cached step multiplier [m]. *)
Theorem getPosition_decode (b t : list byte) (m : Z) (st : state) :
  length b = 12%nat ->
  m <> 0 ->
  is_open (ser st) = true ->
  stepMult (self st) = Some m ->
  firstn 13 (in_waiting (ser st) ++ hd [] (arrivals (ser st))) = b ++ t ->
  let x := int32_le (nth 0 b x00) (nth 1 b x00) (nth 2 b x00) (nth 3 b x00) in
  let y := int32_le (nth 4 b x00) (nth 5 b x00) (nth 6 b x00) (nth 7 b x00) in
  let z := int32_le (nth 8 b x00) (nth 9 b x00) (nth 10 b x00) (nth 11 b x00) in
  fst (getPosition st) =
    Ok [ finite (Qred (inject_Z x / inject_Z m));
         finite (Qred (inject_Z y / inject_Z m));
         finite (Qred (inject_Z z / inject_Z m)) ].
Proof.
  intros Hlen Hm Hopen Hstep Hread x y z.
  destruct st as [a [o w rs] pp clk tr].
  cbn [ser is_open in_waiting arrivals self] in Hopen, Hread, Hstep. subst o.
  unfold getPosition. run_io. rewrite Hread.
  rewrite (getPosition_xyz_um_12 b t m) by assumption.
  cbn [map]. fold x y z. rewrite !true_divide_finite by exact Hm.
  destruct (truthy (verbose a)); run_io; reflexivity.
Qed.

(** Step counts (10000, 20000, 30000) at 25 steps per micrometer are the
    position (400, 800, 1200). *)
Lemma getPosition_decode_fixture :
  fst (getPosition
         (connected_state 25
            [Struct.le_bytes 4 10000 ++ Struct.le_bytes 4 20000 ++
             Struct.le_bytes 4 30000 ++ [CR]] [])) =
    Ok [finite 400; finite 800; finite 1200].
Proof.
  apply (getPosition_decode
           (Struct.le_bytes 4 10000 ++ Struct.le_bytes 4 20000 ++
            Struct.le_bytes 4 30000) [CR] 25
           (connected_state 25
              [Struct.le_bytes 4 10000 ++ Struct.le_bytes 4 20000 ++
               Struct.le_bytes 4 30000 ++ [CR]] [])).
  - reflexivity.
  - discriminate.
  - reflexivity.
  - reflexivity.
  - reflexivity.
Defined.


(** One step count too large for 32 bits: [struct.error], nothing done. *)
Lemma gotoPosition_xyzb_overflow (p0 p1 p2 : Q) (m : Z) (st : state) :
  stepMult (self st) = Some m ->
  ~ int32 (int (p0 * inject_Z m)) \/
  ~ int32 (int (p1 * inject_Z m)) \/
  ~ int32 (int (p2 * inject_Z m)) ->
  gotoPosition_xyzb [p0; p1; p2] st = (Raise struct_error, st).
Proof.
  intros Hm H. calibrated st Hm.
  unfold gotoPosition_xyzb. run_io.
  unfold Struct.pack_lll.
  destruct H as [H|[H|H]]; rewrite (pack_l_out_of_range _ H);
    repeat match goal with
           | |- context [match Struct.pack_l ?v with _ => _ end] =>
               destruct (Struct.pack_l v)
           end; reflexivity.
Qed.





(** ** Responses that are too short *)

(** Twelve data bytes with no terminator behind them are decoded like a
    complete response. *)
Example getPosition_12_bytes_run :
  fst (getPosition
         (connected_state 25
            [Struct.le_bytes 4 10000 ++ Struct.le_bytes 4 20000 ++
             Struct.le_bytes 4 30000] [])) =
    Ok [finite 400; finite 800; finite 1200].
Proof. reflexivity. Qed.

(** So are twelve data bytes followed by a byte that is not the terminator. *)
Example getPosition_wrong_terminator_run :
  fst (getPosition
         (connected_state 25
            [Struct.le_bytes 4 10000 ++ Struct.le_bytes 4 20000 ++
             Struct.le_bytes 4 30000 ++ [x00]] [])) =
    Ok [finite 400; finite 800; finite 1200].
Proof. reflexivity. Qed.

(** C7 as stated does not hold: a response of twelve data bytes without the
    terminator does not make [getPosition] fail. *)
Lemma getPosition_12_bytes_accepted :
  ~ fails (fst (getPosition
                  (connected_state 25
                     [Struct.le_bytes 4 10000 ++ Struct.le_bytes 4 20000 ++
                      Struct.le_bytes 4 30000] []))).
Proof.
  intros [e He]. vm_compute in He. discriminate He.
Qed.

(** C7, amended.  A position response of fewer than twelve bytes makes
    [getPosition] fail, with [struct.error], after the write and the read
    and with nothing interpreted, printed or stored; a response of twelve
    bytes or more is decoded from its first twelve bytes, whatever
    follows them. *)
Theorem getPosition_response_length (r : list byte) (m : Z) (st : state) :
  is_open (ser st) = true ->
  stepMult (self st) = Some m ->
  firstn 13 (in_waiting (ser st) ++ hd [] (arrivals (ser st))) = r ->
  ((length r < 12)%nat ->
   fst (getPosition st) = Raise struct_error /\
   self (snd (getPosition st)) = self st /\
   trace (snd (getPosition st)) =
     trace st ++ [ev_write [op_c; CR]; ev_read 13 r]) /\
  ((12 <= length r)%nat ->
   fst (getPosition st) =
     Ok (map (fun v => true_divide v m)
           [ int32_le (nth 0 r x00) (nth 1 r x00) (nth 2 r x00) (nth 3 r x00);
             int32_le (nth 4 r x00) (nth 5 r x00) (nth 6 r x00) (nth 7 r x00);
             int32_le (nth 8 r x00) (nth 9 r x00) (nth 10 r x00) (nth 11 r x00) ])).
Proof.
  intros Hopen Hstep Hread.
  destruct st as [a [o w rs] pp clk tr].
  cbn [ser is_open in_waiting arrivals self] in Hopen, Hread, Hstep. subst o.
  split; intros Hlen.
  - unfold getPosition. run_io. rewrite Hread.
    unfold getPosition_xyz_um. run_io.
    rewrite unpack_lll_short by (rewrite length_firstn; lia).
    cbn [fst snd self trace log set_ser]. rewrite <- app_assoc. auto.
  - unfold getPosition. run_io. rewrite Hread.
    rewrite <- (firstn_skipn 12 r) at 1.
    rewrite (getPosition_xyz_um_12 (firstn 12 r) (skipn 12 r) m)
      by (try rewrite length_firstn; try assumption; lia).
    assert (Hnth : forall i, (i < 12)%nat -> nth i (firstn 12 r) x00 = nth i r x00).
    { intros i Hi. rewrite <- (firstn_skipn 12 r) at 2.
      rewrite app_nth1 by (rewrite length_firstn; lia). reflexivity. }
    rewrite !Hnth by lia.
    destruct (truthy (verbose a)); run_io; reflexivity.
Qed.

(** Eleven bytes fail; the twelve of the fixture decode. *)
Lemma getPosition_response_length_cases :
  fst (getPosition
         (connected_state 25
            [Struct.le_bytes 4 10000 ++ Struct.le_bytes 4 20000 ++
             Struct.le_bytes 3 30000] [])) = Raise struct_error /\
  fst (getPosition
         (connected_state 25
            [Struct.le_bytes 4 10000 ++ Struct.le_bytes 4 20000 ++
             Struct.le_bytes 4 30000] [])) =
    Ok [finite 400; finite 800; finite 1200].
Proof.
  split.
  - apply (proj1 (getPosition_response_length
                    (Struct.le_bytes 4 10000 ++ Struct.le_bytes 4 20000 ++
                     Struct.le_bytes 3 30000) 25
                    (connected_state 25
                       [Struct.le_bytes 4 10000 ++ Struct.le_bytes 4 20000 ++
                        Struct.le_bytes 3 30000] [])
                    eq_refl eq_refl eq_refl)).
    cbn [length app Struct.le_bytes]. lia.
  - apply (proj2 (getPosition_response_length
                    (Struct.le_bytes 4 10000 ++ Struct.le_bytes 4 20000 ++
                     Struct.le_bytes 4 30000) 25
                    (connected_state 25
                       [Struct.le_bytes 4 10000 ++ Struct.le_bytes 4 20000 ++
                        Struct.le_bytes 4 30000] [])
                    eq_refl eq_refl eq_refl)).
    cbn [length app Struct.le_bytes]. lia.
Defined.

(** ** Moving *)

(** A move whose acknowledgement never comes: the call prints the timeout
    and ends like any other. *)
Example gotoPosition_timeout_run :
  gotoPosition [400; 800; 1200]%Q (connected_state 25 [[]] [10; 40]%Q) =
    (Ok tt,
     mkState (mkAttrs 1 30 (Some 1) (Some 25) (Some 10) (Some 200))
             (mkSerial true [] []) true []
             [ ev_time 10;
               ev_write ([op_m] ++ Struct.le_bytes 4 10000 ++ Struct.le_bytes 4 20000
                           ++ Struct.le_bytes 4 30000 ++ [CR]);
               ev_read 1 [];
               ev_time 40;
               ev_print (msg_timeout 30) ]).
Proof. reflexivity. Qed.




(** C10.  For every call [gotoPosition(pos)] where [pos] does not have
    exactly three coordinates, the call prints its complaint and ends the
    process through [sys.exit(1)], before anything is written to the port
    (or read from it) and without touching the instance. *)
Theorem gotoPosition_wrong_length (pos : list Q) (st : state) :
  length pos <> 3%nat ->
  gotoPosition pos st = (Raise (SystemExit 1), log (ev_print msg_length_3) st) /\
  writes (trace (snd (gotoPosition pos st))) = writes (trace st) /\
  io_events (trace (snd (gotoPosition pos st))) = io_events (trace st).
Proof.
  intros Hlen.
  assert (E : gotoPosition pos st =
              (Raise (SystemExit 1), log (ev_print msg_length_3) st)).
  { unfold gotoPosition. run_io.
    destruct (Nat.eqb_spec (length pos) 3); [contradiction|].
    reflexivity. }
  rewrite E. cbn [snd log trace].
  unfold io_events. rewrite writes_app, filter_app.
  cbn [writes filter is_io]. rewrite !app_nil_r. auto.
Qed.

(** A position of two coordinates. *)
Lemma gotoPosition_wrong_length_pair :
  gotoPosition [400; 800]%Q (connected_state 25 [[CR]] []) =
    (Raise (SystemExit 1),
     log (ev_print msg_length_3) (connected_state 25 [[CR]] [])) /\
  writes (trace (snd (gotoPosition [400; 800]%Q (connected_state 25 [[CR]] [])))) = [] /\
  io_events (trace (snd (gotoPosition [400; 800]%Q (connected_state 25 [[CR]] [])))) = [].
Proof.
  apply (gotoPosition_wrong_length [400; 800]%Q (connected_state 25 [[CR]] [])).
  cbn [length]. lia.
Defined.

(** ** After the release *)

(** The two encoders touch neither the instance nor the port. *)
Lemma setVelocity_velb_pure (Vel vScalF : Z) (st : state) :
  snd (setVelocity_velb Vel vScalF st) = st.
Proof.
  unfold setVelocity_velb. unfold bind at 1. unfold struct_call at 1.
  destruct (Struct.pack_H Vel) as [velb|]; [|reflexivity].
  unfold ret at 1.
  destruct (vScalF =? 50); [|reflexivity].
  destruct velb as [|b0 [|b1 velb]]; try reflexivity.
  run_io. cbn [Struct.unpack_B].
  destruct (Struct.pack_B (ord b1 + 128)); reflexivity.
Qed.

Lemma gotoPosition_xyzb_pure (pos : list Q) (st : state) :
  snd (gotoPosition_xyzb pos st) = st.
Proof.
  unfold gotoPosition_xyzb.
  destruct st as [[v tO c [m|] vs cv] p pp clk tr];
    destruct pos as [|p0 [|p1 [|p2 pos]]]; run_io; try reflexivity.
  destruct (Struct.pack_lll _ _ _); reflexivity.
Qed.











(** After [__del__], a position of the wrong length still ends the process
    instead of meeting the closed port. *)
Example gotoPosition_after_release_run :
  fst (call (op_gotoPosition [400; 800]%Q)
         (snd (__del__ (connected_state 25 [] [])))) = Raise (SystemExit 1).
Proof. reflexivity. Qed.

(** So does a velocity that cannot be packed end in [struct.error]. *)
Example setVelocity_after_release_run :
  fst (call (op_setVelocity 70000 10)
         (snd (__del__ (connected_state 25 [] [])))) = Raise struct_error.
Proof. reflexivity. Qed.




(** ** Construction *)

Lemma setVelocity_velb_200_10 (st : state) :
  setVelocity_velb 200 10 st = (Ok [xc8; x00], st).
Proof. reflexivity. Qed.

Lemma read_at_most_1 (a : list byte) :
  (length a <= 1)%nat -> firstn 1 a = a /\ skipn 1 a = [].
Proof.
  destruct a as [|x [|y a]]; cbn [length firstn skipn]; intros H;
    (split; [reflexivity | reflexivity]) || lia.
Qed.

(** C9 as stated does not hold: nothing on the instance marks a start the
    device did not confirm.  The instance left by such a start (the status
    reports 11265) carries the attributes, one by one, of an instance whose
    start was confirmed (the status reported 200, ['sutterMP285 ready'] was
    printed) and whose status was queried once more since; so no
    observation of the attributes tells the two apart. *)
Lemma init_degraded_leaves_no_mark :
  let degraded :=
    snd (__init__ (initial_state true [[CR]; [CR]; status_fast; [CR]])) in
  let confirmed :=
    snd (__init__ (initial_state true
                     [[CR]; [CR]; status_sample; [CR]; status_fast; [CR]])) in
  let refreshed := snd (getStatus confirmed) in
  last (trace degraded) ev_close = ev_print msg_warning /\
  last (trace confirmed) ev_close = ev_print msg_ready /\
  currentVelocity (self confirmed) = Some 200 /\
  self degraded = self refreshed /\
  ser degraded = ser refreshed /\
  forall marked : attrs -> bool,
    marked (self degraded) = marked (self refreshed).
Proof.
  intros degraded confirmed refreshed.
  assert (E : self degraded = self refreshed) by (vm_compute; reflexivity).
  split; [vm_compute; reflexivity|].
  split; [vm_compute; reflexivity|].
  split; [vm_compute; reflexivity|].
  split; [exact E|].
  split; [vm_compute; reflexivity|].
  intros marked. rewrite E. reflexivity.
Qed.

(** C9, amended.  Once the port has opened, [__init__] sets the velocity to
    200 at scale factor 10, asks for a panel update and queries the status,
    in this order.  If the velocity the status reports is not 200,
    construction still succeeds: it prints its warning, the last thing it
    does, and leaves an instance that is connected, on an open port, with
    the reported step multiplier and velocity cached. *)
Theorem init_degraded (a1 a2 b t : list byte) (rest : list (list byte)) (st : state) :
  port_present st = true ->
  in_waiting (ser st) = [] ->
  arrivals (ser st) = a1 :: a2 :: b :: t :: rest ->
  (length a1 <= 1)%nat ->
  (length a2 <= 1)%nat ->
  length b = 32%nat ->
  let cv := Z.land (ord (nth 29 b x00)) 127 * 256 + ord (nth 28 b x00) in
  cv <> 200 ->
  fst (__init__ st) = Ok tt /\
  writes (trace (snd (__init__ st))) =
    writes (trace st) ++ [[op_V; chr 200; chr 0; CR]; [op_n; CR]; [op_s; CR]] /\
  last (trace (snd (__init__ st))) ev_close = ev_print msg_warning /\
  is_open (ser (snd (__init__ st))) = true /\
  connected (self (snd (__init__ st))) = Some 1 /\
  stepMult (self (snd (__init__ st))) =
    Some (ord (nth 24 b x00) + ord (nth 25 b x00) * 256) /\
  currentVelocity (self (snd (__init__ st))) = Some cv.
Proof.
  intros Hport Hbuf Harr H1 H2 Hlen cv Hcv.
  destruct st as [a [o w rs] pp clk tr].
  cbn [ser in_waiting arrivals port_present trace] in *. subst pp w rs.
  destruct (read_at_most_1 a1 H1) as [F1 S1].
  destruct (read_at_most_1 a2 H2) as [F2 S2].
  unfold __init__, Serial_open. run_io.
  change (truthy 1) with true. run_io.
  unfold setVelocity. run_io. rewrite setVelocity_velb_200_10. run_io.
  cbn [app hd tl]. rewrite F1, S1.
  unfold updatePanel. run_io. cbn [app hd tl]. rewrite F2, S2.
  unfold getStatus. run_io. change (truthy 1) with true. run_io.
  cbn [app hd tl].
  rewrite (firstn_all2 (n := 32) b) by lia.
  rewrite (skipn_all2 (n := 32) b) by lia.
  unfold Struct.unpack_32B. rewrite Hlen. cbn [Nat.eqb app]. run_io.
  assert (E : status_currentVelocity (map ord b) = cv).
  { unfold status_currentVelocity, cv.
    rewrite !nth_map_ord, Z.land_comm. reflexivity. }
  assert (Em : status_stepMult (map ord b) =
               ord (nth 24 b x00) + ord (nth 25 b x00) * 256).
  { unfold status_stepMult. rewrite !nth_map_ord. lia. }
  rewrite E, Em.
  destruct (Z.eqb_spec cv 200) as [Heq|_]; [contradiction|].
  run_io. cbn [connected currentVelocity stepMult].
  rewrite last_last.
  repeat rewrite writes_app. cbn [writes]. rewrite !app_nil_r.
  rewrite <- !app_assoc. cbn [app].
  repeat split; reflexivity.
Qed.

(** The status block of the header with its velocity bytes replaced
    (11265 at scale factor 50): the start-up warning, and a live instance. *)
Lemma init_degraded_fixture :
  fst (__init__ (initial_state true [[CR]; [CR]; status_fast; [CR]])) = Ok tt /\
  writes (trace (snd (__init__ (initial_state true [[CR]; [CR]; status_fast; [CR]])))) =
    [[op_V; chr 200; chr 0; CR]; [op_n; CR]; [op_s; CR]] /\
  last (trace (snd (__init__ (initial_state true [[CR]; [CR]; status_fast; [CR]]))))
       ev_close = ev_print msg_warning /\
  is_open (ser (snd (__init__ (initial_state true [[CR]; [CR]; status_fast; [CR]])))) = true /\
  connected (self (snd (__init__ (initial_state true [[CR]; [CR]; status_fast; [CR]])))) =
    Some 1 /\
  stepMult (self (snd (__init__ (initial_state true [[CR]; [CR]; status_fast; [CR]])))) =
    Some 25 /\
  currentVelocity
    (self (snd (__init__ (initial_state true [[CR]; [CR]; status_fast; [CR]])))) =
    Some 11265.
Proof.
  apply (init_degraded [CR] [CR] status_fast [CR] []
           (initial_state true [[CR]; [CR]; status_fast; [CR]])).
  - reflexivity.
  - reflexivity.
  - reflexivity.
  - cbn [length]. lia.
  - cbn [length]. lia.
  - reflexivity.
  - vm_compute. discriminate.
Defined.

(** The start of the header's example session: the device confirms 200. *)
Example init_ready :
  fst (__init__ (initial_state true [[CR]; [CR]; status_sample; [CR]])) = Ok tt /\
  last (trace (snd (__init__ (initial_state true [[CR]; [CR]; status_sample; [CR]]))))
       ev_close = ev_print msg_ready.
Proof. split; reflexivity. Qed.

(** When the device sends no status block at all, construction does not
    reach its warning: the unpacking of the empty answer raises. *)
Example init_silent_device :
  fst (__init__ (initial_state true [[]; []; []; []])) = Raise struct_error.
Proof. reflexivity. Qed.

(** When the port cannot be opened, construction ends the process. *)
Example init_no_port :
  __init__ (initial_state false []) =
    (Raise (SystemExit 1),
     mkState (mkAttrs 1 30 None None None None) (mkSerial false [] []) false []
             [ev_print msg_no_connection]).
Proof. reflexivity. Qed.

(** * Further properties of the driver *)

(** ** The status query *)

(** What [getStatus] returns and stores on a port that delivers a whole
    block. *)
Lemma getStatus_whole_block (b : list byte) (st : state) :
  length b = 32%nat ->
  is_open (ser st) = true ->
  firstn 32 (in_waiting (ser st) ++ hd [] (arrivals (ser st))) = b ->
  fst (getStatus st) =
    Ok (status_stepMult (map ord b), status_currentVelocity (map ord b),
        status_vScaleFactor (map ord b)) /\
  self (snd (getStatus st)) =
    mkAttrs (verbose (self st)) (timeOut (self st)) (connected (self st))
            (Some (status_stepMult (map ord b)))
            (Some (status_vScaleFactor (map ord b)))
            (Some (status_currentVelocity (map ord b))).
Proof.
  intros Hlen Hopen Hread.
  destruct st as [a [o w rs] pp clk tr].
  cbn [ser is_open in_waiting arrivals] in Hopen, Hread. subst o.
  unfold getStatus. run_io.
  destruct (truthy (verbose a)); run_io; rewrite Hread;
    unfold Struct.unpack_32B; rewrite Hlen; cbn [Nat.eqb]; run_io;
    split; reflexivity.
Qed.

Lemma land_127 (v : Z) : Z.land 127 v = v mod 128.
Proof.
  rewrite Z.land_comm. change 127 with (Z.ones 7).
  rewrite Z.land_ones by lia. reflexivity.
Qed.

(** The velocity of a status block is the number in the low 15 bits of the
    16-bit field at offset 28, and the scale factor its top bit. *)
Lemma status_velocity_field (b : list byte) (Vel vScalF : Z) :
  0 <= Vel <= 32767 ->
  vScalF = 10 \/ vScalF = 50 ->
  ord (nth 28 b x00) = Vel mod 256 ->
  ord (nth 29 b x00) = Vel / 256 + (if vScalF =? 50 then 128 else 0) ->
  status_currentVelocity (map ord b) = Vel /\
  status_vScaleFactor (map ord b) = vScalF.
Proof.
  intros HV Hs H28 H29.
  assert (Hq : 0 <= Vel / 256 <= 127) by (Z.div_mod_to_equations; lia).
  unfold status_currentVelocity, status_vScaleFactor.
  rewrite !nth_map_ord, land_127, H28, H29.
  destruct Hs as [-> | ->]; cbn [Z.eqb Pos.eqb].
  - rewrite Z.add_0_r, Z.mod_small by lia.
    destruct (Z.gtb_spec (Vel / 256) 127); [lia|].
    split; [Z.div_mod_to_equations; lia | reflexivity].
  - replace ((Vel / 256 + 128) mod 128) with (Vel / 256)
      by (Z.div_mod_to_equations; lia).
    destruct (Z.gtb_spec (Vel / 256 + 128) 127); [|lia].
    split; [Z.div_mod_to_equations; lia | reflexivity].
Qed.

(** X1.  The velocity field is a round trip between [setVelocity] and
    [getStatus]: when bytes 28 and 29 of a status block are the two bytes
    that [setVelocity] sends for a magnitude in [0, 32767] and a scale
    factor of 10 or 50, [getStatus] reports and caches that magnitude and
    that scale factor. *)
Theorem velocity_status_roundtrip
    (Vel vScalF : Z) (b : list byte) (st0 st : state) :
  0 <= Vel <= 32767 ->
  vScalF = 10 \/ vScalF = 50 ->
  length b = 32%nat ->
  fst (setVelocity_velb Vel vScalF st0) = Ok [nth 28 b x00; nth 29 b x00] ->
  is_open (ser st) = true ->
  firstn 32 (in_waiting (ser st) ++ hd [] (arrivals (ser st))) = b ->
  exists sm : Z,
    fst (getStatus st) = Ok (sm, Vel, vScalF) /\
    currentVelocity (self (snd (getStatus st))) = Some Vel /\
    vScaleFactor (self (snd (getStatus st))) = Some vScalF.
Proof.
  intros HV Hs Hlen Henc Hopen Hread.
  assert (Hq : 0 <= Vel / 256 <= 127) by (Z.div_mod_to_equations; lia).
  assert (Hbytes : ord (nth 28 b x00) = Vel mod 256 /\
                   ord (nth 29 b x00) =
                     Vel / 256 + (if vScalF =? 50 then 128 else 0)).
  { destruct Hs as [-> | ->].
    - rewrite setVelocity_velb_plain in Henc by lia.
      cbn [fst] in Henc. injection Henc as <- <-.
      rewrite ord_low_byte, ord_high_byte by lia.
      cbn [Z.eqb Pos.eqb]. lia.
    - rewrite setVelocity_velb_fine in Henc by lia.
      cbn [fst] in Henc. injection Henc as <- <-.
      rewrite !ord_low_byte. cbn [Z.eqb Pos.eqb].
      rewrite (Z.mod_small (Vel / 256 + 128)) by lia. lia. }
  destruct Hbytes as [H28 H29].
  destruct (status_velocity_field b Vel vScalF HV Hs H28 H29) as [Ecv Evs].
  destruct (getStatus_whole_block b st Hlen Hopen Hread) as [Hres Hself].
  exists (status_stepMult (map ord b)).
  rewrite Hres, Hself, Ecv, Evs. cbn [currentVelocity vScaleFactor].
  repeat split; reflexivity.
Qed.

(** Velocity 11265 at scale factor 50 is what the block [status_fast]
    carries. *)
Lemma velocity_status_roundtrip_11265 :
  exists sm : Z,
    fst (getStatus (connected_state 25 [status_fast; [CR]] [])) =
      Ok (sm, 11265, 50) /\
    currentVelocity
      (self (snd (getStatus (connected_state 25 [status_fast; [CR]] [])))) =
      Some 11265 /\
    vScaleFactor
      (self (snd (getStatus (connected_state 25 [status_fast; [CR]] [])))) =
      Some 50.
Proof.
  apply (velocity_status_roundtrip 11265 50 status_fast
           (connected_state 25 [] [])
           (connected_state 25 [status_fast; [CR]] [])).
  - lia.
  - right; reflexivity.
  - reflexivity.
  - reflexivity.
  - reflexivity.
  - reflexivity.
Defined.

Lemma io_events_app (tr1 tr2 : list event) :
  io_events (tr1 ++ tr2) = io_events tr1 ++ io_events tr2.
Proof. apply filter_app. Qed.

(** X2.  When the status read returns fewer than 32 bytes, [getStatus]
    still performs the read of the terminator and then fails with
    [struct.error]; the cached step multiplier, velocity and scale factor
    stay as they were. *)
Theorem getStatus_short_block (r : list byte) (st : state) :
  is_open (ser st) = true ->
  firstn 32 (in_waiting (ser st) ++ hd [] (arrivals (ser st))) = r ->
  (length r < 32)%nat ->
  fst (getStatus st) = Raise struct_error /\
  self (snd (getStatus st)) = self st /\
  io_events (trace (snd (getStatus st))) =
    io_events (trace st) ++
    [ ev_write [op_s; CR];
      ev_read 32 r;
      ev_read 1 (firstn 1 (skipn 32 (in_waiting (ser st) ++ hd [] (arrivals (ser st)))
                           ++ hd [] (tl (arrivals (ser st))))) ].
Proof.
  intros Hopen Hread Hlen.
  destruct st as [a [o w rs] pp clk tr].
  cbn [ser is_open in_waiting arrivals self trace] in *. subst o.
  unfold getStatus. run_io.
  destruct (truthy (verbose a)); run_io; rewrite Hread;
    unfold Struct.unpack_32B;
    (destruct (Nat.eqb_spec (length r) 32) as [E|_]; [lia|]);
    run_io; rewrite !io_events_app; cbn [io_events filter is_io app];
    rewrite <- ?app_assoc; cbn [app]; rewrite ?app_nil_r;
    repeat split; reflexivity.
Qed.

(** A device that sends 31 bytes and then falls silent. *)
Lemma getStatus_short_block_31 :
  fst (getStatus (connected_state 25 [firstn 31 status_sample] [])) =
    Raise struct_error /\
  self (snd (getStatus (connected_state 25 [firstn 31 status_sample] []))) =
    self (connected_state 25 [firstn 31 status_sample] []) /\
  io_events (trace (snd (getStatus (connected_state 25 [firstn 31 status_sample] [])))) =
    [ ev_write [op_s; CR]; ev_read 32 (firstn 31 status_sample); ev_read 1 [] ].
Proof.
  apply (getStatus_short_block (firstn 31 status_sample)
           (connected_state 25 [firstn 31 status_sample] [])).
  - reflexivity.
  - reflexivity.
  - cbn. lia.
Defined.

Lemma nth_ord_range (i : nat) (s : list byte) : 0 <= nth i (map ord s) 0 <= 255.
Proof. rewrite nth_map_ord. apply ord_range. Qed.

(** X3.  Whatever [getStatus] returns lies in the range of its field: the
    step multiplier in [0, 65535] (zero included), the velocity in
    [0, 32767], the scale factor 10 or 50; and these are the values the
    instance holds afterwards. *)
Theorem getStatus_ranges (st : state) (sm cv vs : Z) :
  fst (getStatus st) = Ok (sm, cv, vs) ->
  0 <= sm <= 65535 /\
  0 <= cv <= 32767 /\
  (vs = 10 \/ vs = 50) /\
  stepMult (self (snd (getStatus st))) = Some sm /\
  currentVelocity (self (snd (getStatus st))) = Some cv /\
  vScaleFactor (self (snd (getStatus st))) = Some vs.
Proof.
  intros Hres.
  destruct st as [a [o w rs] pp clk tr].
  destruct o.
  - set (r := firstn 32 (w ++ hd [] rs)).
    destruct (Nat.eq_dec (length r) 32) as [Hlen|Hlen].
    + destruct (getStatus_whole_block r
                  (mkState a (mkSerial true w rs) pp clk tr) Hlen eq_refl eq_refl)
        as [Hok Hself].
      rewrite Hok in Hres. injection Hres as <- <- <-.
      rewrite Hself. cbn [stepMult currentVelocity vScaleFactor].
      unfold status_stepMult, status_currentVelocity, status_vScaleFactor.
      rewrite land_127.
      pose proof (nth_ord_range 24 r). pose proof (nth_ord_range 25 r).
      pose proof (nth_ord_range 28 r).
      pose proof (Z.mod_pos_bound (nth 29 (map ord r) 0) 128 ltac:(lia)).
      repeat split; try reflexivity; try lia.
      destruct (_ >? _); [right | left]; reflexivity.
    + exfalso. revert Hres. unfold getStatus. run_io.
      destruct (truthy (verbose a)); run_io; fold r;
        unfold Struct.unpack_32B;
        (destruct (Nat.eqb_spec (length r) 32) as [E|_]; [contradiction|]);
        run_io; discriminate.
  - exfalso. revert Hres. unfold getStatus. run_io.
    destruct (truthy (verbose a)); run_io; discriminate.
Qed.

(** The block of the header of the source file. *)
Lemma getStatus_ranges_sample :
  0 <= 25 <= 65535 /\
  0 <= 200 <= 32767 /\
  (10 = 10 \/ 10 = 50) /\
  stepMult (self (snd (getStatus (connected_state 1 [status_sample; [CR]] [])))) = Some 25 /\
  currentVelocity (self (snd (getStatus (connected_state 1 [status_sample; [CR]] [])))) =
    Some 200 /\
  vScaleFactor (self (snd (getStatus (connected_state 1 [status_sample; [CR]] [])))) =
    Some 10.
Proof.
  apply (getStatus_ranges (connected_state 1 [status_sample; [CR]] []) 25 200 10).
  reflexivity.
Defined.

(** ** What the operations leave alone *)

Lemma getPosition_keeps (st : state) :
  self (snd (getPosition st)) = self st /\
  is_open (ser (snd (getPosition st))) = is_open (ser st) /\
  port_present (snd (getPosition st)) = port_present st.
Proof.
  destruct st as [a [o w rs] pp clk tr].
  unfold getPosition, getPosition_xyz_um. crunch; auto.
Qed.

Lemma gotoPosition_keeps (pos : list Q) (st : state) :
  self (snd (gotoPosition pos st)) = self st /\
  is_open (ser (snd (gotoPosition pos st))) = is_open (ser st) /\
  port_present (snd (gotoPosition pos st)) = port_present st.
Proof.
  pose proof (gotoPosition_xyzb_pure pos st) as Hpure.
  unfold gotoPosition. run_io.
  destruct (negb (length pos =? 3)%nat); run_io; [auto|].
  destruct (gotoPosition_xyzb pos st) as [[xyzb|e] st1]; cbn [snd] in Hpure; subst st1.
  - destruct st as [a [o w rs] pp clk tr]. crunch; auto.
  - cbn [snd]. auto.
Qed.

Lemma setVelocity_keeps (Vel vScalF : Z) (st : state) :
  self (snd (setVelocity Vel vScalF st)) = self st /\
  is_open (ser (snd (setVelocity Vel vScalF st))) = is_open (ser st) /\
  port_present (snd (setVelocity Vel vScalF st)) = port_present st.
Proof.
  pose proof (setVelocity_velb_pure Vel vScalF st) as Hpure.
  unfold setVelocity, bind.
  destruct (setVelocity_velb Vel vScalF st) as [[velb|e] st1]; cbn [snd] in Hpure; subst st1.
  - destruct st as [a [o w rs] pp clk tr]. crunch; auto.
  - cbn [snd]. auto.
Qed.

Lemma getStatus_keeps_port (st : state) :
  is_open (ser (snd (getStatus st))) = is_open (ser st) /\
  port_present (snd (getStatus st)) = port_present st.
Proof.
  destruct st as [a [o w rs] pp clk tr].
  unfold getStatus. crunch; auto.
Qed.

Lemma simple_command_keeps (st : state) :
  (self (snd (updatePanel st)) = self st /\
   is_open (ser (snd (updatePanel st))) = is_open (ser st) /\
   port_present (snd (updatePanel st)) = port_present st) /\
  (self (snd (setOrigin st)) = self st /\
   is_open (ser (snd (setOrigin st))) = is_open (ser st) /\
   port_present (snd (setOrigin st)) = port_present st) /\
  (self (snd (sendReset st)) = self st /\
   is_open (ser (snd (sendReset st))) = is_open (ser st) /\
   port_present (snd (sendReset st)) = port_present st).
Proof.
  destruct st as [a [o w rs] pp clk tr].
  unfold updatePanel, setOrigin, sendReset. crunch; auto.
Qed.

(** Dropping the value of a call does not touch the state. *)
Lemma snd_discard {A} (m : M A) (st : state) :
  snd ((_ <- m ;; ret tt) st) = snd (m st).
Proof. unfold bind, ret. destruct (m st) as [[a|e] st']; reflexivity. Qed.

(** X4.  The attributes of the instance, and with them the cached step
    multiplier, velocity and scale factor, are changed by no operation but
    [getStatus]: whatever the arguments, the state of the port and the
    outcome of the call. *)
Theorem only_getStatus_updates_attributes (o : operation) (st : state) :
  o <> op_getStatus ->
  self (snd (call o st)) = self st.
Proof.
  intros Ho.
  destruct o as [|pos|Vel vScalF| | | |]; cbn [call].
  - rewrite snd_discard. apply getPosition_keeps.
  - apply gotoPosition_keeps.
  - apply setVelocity_keeps.
  - apply (simple_command_keeps st).
  - apply (simple_command_keeps st).
  - apply (simple_command_keeps st).
  - contradiction.
Qed.

(** Setting the velocity to 300 at scale factor 50 leaves the cached
    velocity of 200 at scale factor 10 in place. *)
Lemma setVelocity_keeps_cache :
  self (snd (call (op_setVelocity 300 50) (connected_state 25 [[CR]] []))) =
    self (connected_state 25 [[CR]] []).
Proof.
  apply (only_getStatus_updates_attributes (op_setVelocity 300 50)
           (connected_state 25 [[CR]] [])).
  discriminate.
Defined.

(** X5.  No operation opens or closes the port: it is open after a call
    exactly when it was open before. *)
Theorem operations_keep_port (o : operation) (st : state) :
  is_open (ser (snd (call o st))) = is_open (ser st) /\
  port_present (snd (call o st)) = port_present st.
Proof.
  destruct o as [|pos|Vel vScalF| | | |]; cbn [call].
  - rewrite snd_discard. apply getPosition_keeps.
  - apply gotoPosition_keeps.
  - apply setVelocity_keeps.
  - apply (simple_command_keeps st).
  - apply (simple_command_keeps st).
  - apply (simple_command_keeps st).
  - rewrite snd_discard. apply getStatus_keeps_port.
Qed.

(** ** The frames on the wire *)

Lemma setVelocity_velb_length (Vel vScalF : Z) (st : state) (velb : list byte) :
  fst (setVelocity_velb Vel vScalF st) = Ok velb -> length velb = 2%nat.
Proof.
  unfold setVelocity_velb, Struct.pack_H.
  destruct ((0 <=? Vel) && (Vel <=? 65535)); run_io; [|discriminate].
  cbn [Struct.le_bytes]. run_io.
  destruct (vScalF =? 50); run_io.
  - cbn [Struct.unpack_B]. unfold Struct.pack_B.
    destruct ((0 <=? _) && (_ <=? 255)); run_io; [|discriminate].
    intros H; injection H as <-. reflexivity.
  - intros H; injection H as <-. reflexivity.
Qed.

Lemma le_bytes_length (n : nat) (v : Z) : length (Struct.le_bytes n v) = n.
Proof.
  revert v. induction n as [|n IH]; intros v; cbn [Struct.le_bytes length];
    [reflexivity | rewrite IH; reflexivity].
Qed.

Lemma pack_lll_length (a b c : Z) (s : list byte) :
  Struct.pack_lll a b c = Some s -> length s = 12%nat.
Proof.
  unfold Struct.pack_lll, Struct.pack_l.
  destruct (_ && _); [|discriminate].
  destruct (_ && _); [|discriminate].
  destruct (_ && _); [|discriminate].
  intros H.
  apply (f_equal (fun o : option (list byte) =>
                    match o with Some x => length x | None => O end)) in H.
  cbv beta iota in H. rewrite <- H.
  rewrite !length_app, !le_bytes_length. reflexivity.
Qed.

Lemma gotoPosition_xyzb_length (pos : list Q) (st : state) (xyzb : list byte) :
  fst (gotoPosition_xyzb pos st) = Ok xyzb -> length xyzb = 12%nat.
Proof.
  unfold gotoPosition_xyzb.
  destruct st as [[v tO c [m|] vs cv] p pp clk tr];
    destruct pos as [|p0 [|p1 [|p2 pos]]]; run_io; try discriminate.
  destruct (Struct.pack_lll _ _ _) as [s|] eqn:E; run_io; [|discriminate].
  intros H; injection H as <-. exact (pack_lll_length _ _ _ _ E).
Qed.

(** X6.  An operation writes to the port at most once, and what it writes
    is one frame: its command letter, a payload of the size the command
    fixes (12 bytes for a move, 2 for a velocity, none otherwise) and the
    terminator. *)
Theorem one_frame_per_operation (o : operation) (st : state) :
  writes (trace (snd (call o st))) = writes (trace st) \/
  exists payload : list byte,
    length payload = payload_size o /\
    writes (trace (snd (call o st))) =
      writes (trace st) ++ [[opcode o] ++ payload ++ [CR]].
Proof.
  destruct o as [|pos|Vel vScalF| | | |]; cbn [call opcode payload_size].
  - rewrite snd_discard.
    destruct st as [a [[|] w rs] pp clk tr]; [right; exists [] | left].
    + split; [reflexivity|].
      unfold getPosition, getPosition_xyz_um. crunch;
        repeat rewrite writes_app; cbn [writes app];
        rewrite ?app_nil_r; reflexivity.
    + reflexivity.
  - pose proof (gotoPosition_xyzb_pure pos st) as Hpure.
    pose proof (gotoPosition_xyzb_length pos st) as Hlen.
    unfold gotoPosition. run_io.
    destruct (negb (length pos =? 3)%nat); run_io.
    { left. rewrite writes_app. cbn [writes]. apply app_nil_r. }
    destruct (gotoPosition_xyzb pos st) as [[xyzb|e] st1];
      cbn [snd fst] in Hpure, Hlen; subst st1; [|left; reflexivity].
    destruct st as [a [[|] w rs] pp clk tr]; [right; exists xyzb | left].
    + split; [apply Hlen; reflexivity|].
      crunch; repeat rewrite writes_app; cbn [writes app];
        rewrite ?app_nil_r; reflexivity.
    + run_io. rewrite writes_app. cbn [writes]. apply app_nil_r.
  - pose proof (setVelocity_velb_pure Vel vScalF st) as Hpure.
    pose proof (setVelocity_velb_length Vel vScalF st) as Hlen.
    unfold setVelocity, bind.
    destruct (setVelocity_velb Vel vScalF st) as [[velb|e] st1];
      cbn [snd fst] in Hpure, Hlen; subst st1; [|left; reflexivity].
    destruct st as [a [[|] w rs] pp clk tr]; [right; exists velb | left].
    + split; [apply Hlen; reflexivity|].
      crunch; repeat rewrite writes_app; cbn [writes app];
        rewrite ?app_nil_r; reflexivity.
    + reflexivity.
  - destruct st as [a [[|] w rs] pp clk tr]; [right; exists [] | left].
    + split; [reflexivity|].
      unfold updatePanel. crunch; repeat rewrite writes_app;
        cbn [writes app]; rewrite ?app_nil_r; reflexivity.
    + reflexivity.
  - destruct st as [a [[|] w rs] pp clk tr]; [right; exists [] | left].
    + split; [reflexivity|].
      unfold setOrigin. crunch; repeat rewrite writes_app;
        cbn [writes app]; rewrite ?app_nil_r; reflexivity.
    + reflexivity.
  - destruct st as [a [[|] w rs] pp clk tr]; [right; exists [] | left].
    + split; [reflexivity|].
      unfold sendReset. crunch; repeat rewrite writes_app;
        cbn [writes app]; rewrite ?app_nil_r; reflexivity.
    + unfold sendReset. run_io. rewrite writes_app. cbn [writes].
      apply app_nil_r.
  - rewrite snd_discard.
    destruct st as [a [[|] w rs] pp clk tr]; [right; exists [] | left].
    + split; [reflexivity|].
      unfold getStatus. crunch; repeat rewrite writes_app;
        cbn [writes app]; rewrite ?app_nil_r; reflexivity.
    + unfold getStatus. crunch; repeat rewrite writes_app;
        cbn [writes app]; rewrite ?app_nil_r; reflexivity.
Qed.

(** ** Moves that cannot be encoded, and starts that fail *)

(** X7.  A move to a position of three coordinates whose products with
    the step multiplier are finite float64 values, and one of whose step
    counts does not fit a signed 32-bit integer, fails with [struct.error]
    before the clock is read and before anything is written or printed:
    the call leaves the whole state as it found it.  (A product beyond the
    range of float64 does not get as far as [struct.pack]: [int] raises on
    the infinity.) *)
Theorem gotoPosition_overflow (p0 p1 p2 : Q) (m : Z) (st : state) :
  stepMult (self st) = Some m ->
  finite_product p0 m -> finite_product p1 m -> finite_product p2 m ->
  ~ int32 (int (p0 * inject_Z m)) \/
  ~ int32 (int (p1 * inject_Z m)) \/
  ~ int32 (int (p2 * inject_Z m)) ->
  gotoPosition [p0; p1; p2] st = (Raise struct_error, st).
Proof.
  intros Hm _ _ _ Hbad.
  unfold gotoPosition. run_io. cbn [length Nat.eqb negb]. run_io.
  rewrite (gotoPosition_xyzb_overflow p0 p1 p2 m st Hm Hbad).
  reflexivity.
Qed.

(** One hundred metres at 25 steps per micrometer is 2.5e9 steps. *)
Lemma gotoPosition_overflow_100m :
  gotoPosition [100000000; 0; 0]%Q (connected_state 25 [[CR]] [10; 11]%Q) =
    (Raise struct_error, connected_state 25 [[CR]] [10; 11]%Q).
Proof.
  apply (gotoPosition_overflow 100000000 0 0 25
           (connected_state 25 [[CR]] [10; 11]%Q)).
  - reflexivity.
  - vm_compute. discriminate.
  - vm_compute. discriminate.
  - vm_compute. discriminate.
  - left. unfold int32. cbn. lia.
Defined.

(** X8.  When the port cannot be opened, [__init__] prints its complaint
    and ends the process with status 1: the port stays closed and there is
    no traffic on it. *)
Theorem init_without_port (st : state) :
  port_present st = false ->
  fst (__init__ st) = Raise (SystemExit 1) /\
  is_open (ser (snd (__init__ st))) = is_open (ser st) /\
  trace (snd (__init__ st)) = trace st ++ [ev_print msg_no_connection].
Proof.
  intros Hport.
  destruct st as [a p pp clk tr]. cbn [port_present] in Hport. subst pp.
  unfold __init__, Serial_open. run_io. auto.
Qed.

Lemma init_without_port_fresh :
  fst (__init__ (initial_state false [])) = Raise (SystemExit 1) /\
  is_open (ser (snd (__init__ (initial_state false [])))) = false /\
  trace (snd (__init__ (initial_state false []))) = [ev_print msg_no_connection].
Proof.
  apply (init_without_port (initial_state false [])). reflexivity.
Defined.

(** X9.  When the port opens but the device answers the status query with
    fewer than 32 bytes (or not at all), [__init__] fails with
    [struct.error]: neither the ready message nor the start-up warning is
    printed, although the port has been opened and the three commands have
    been written. *)
Theorem init_short_status
    (a1 a2 b : list byte) (rest : list (list byte)) (st : state) :
  port_present st = true ->
  in_waiting (ser st) = [] ->
  arrivals (ser st) = a1 :: a2 :: b :: rest ->
  (length a1 <= 1)%nat ->
  (length a2 <= 1)%nat ->
  (length b < 32)%nat ->
  fst (__init__ st) = Raise struct_error /\
  is_open (ser (snd (__init__ st))) = true /\
  writes (trace (snd (__init__ st))) =
    writes (trace st) ++ [[op_V; chr 200; chr 0; CR]; [op_n; CR]; [op_s; CR]] /\
  ~ In (ev_print msg_ready) (skipn (length (trace st)) (trace (snd (__init__ st)))) /\
  ~ In (ev_print msg_warning) (skipn (length (trace st)) (trace (snd (__init__ st)))).
Proof.
  intros Hport Hbuf Harr H1 H2 Hlen.
  destruct st as [a [o w rs] pp clk tr].
  cbn [ser in_waiting arrivals port_present trace] in *. subst pp w rs.
  destruct (read_at_most_1 a1 H1) as [F1 S1].
  destruct (read_at_most_1 a2 H2) as [F2 S2].
  unfold __init__, Serial_open. run_io.
  change (truthy 1) with true. run_io.
  unfold setVelocity. run_io. rewrite setVelocity_velb_200_10. run_io.
  cbn [app hd tl]. rewrite F1, S1.
  unfold updatePanel. run_io. cbn [app hd tl]. rewrite F2, S2.
  unfold getStatus. run_io. change (truthy 1) with true. run_io.
  cbn [app hd tl].
  rewrite (firstn_all2 (n := 32) b) by lia.
  rewrite (skipn_all2 (n := 32) b) by lia.
  unfold Struct.unpack_32B.
  destruct (Nat.eqb_spec (length b) 32) as [E|_]; [lia|]. run_io.
  repeat rewrite writes_app. cbn [writes]. rewrite !app_nil_r.
  rewrite <- !app_assoc. cbn [app].
  rewrite skipn_app, skipn_all, Nat.sub_diag. cbn [skipn app].
  repeat split; try reflexivity;
    cbn [In]; intros H; repeat (destruct H as [H|H]; [discriminate H|]);
    exact H.
Qed.

(** A device that acknowledges the two commands and then stays silent. *)
Lemma init_short_status_silent :
  fst (__init__ (initial_state true [[CR]; [CR]; []])) = Raise struct_error /\
  is_open (ser (snd (__init__ (initial_state true [[CR]; [CR]; []])))) = true /\
  writes (trace (snd (__init__ (initial_state true [[CR]; [CR]; []])))) =
    writes (trace (initial_state true [[CR]; [CR]; []])) ++
    [[op_V; chr 200; chr 0; CR]; [op_n; CR]; [op_s; CR]] /\
  ~ In (ev_print msg_ready)
       (skipn (length (trace (initial_state true [[CR]; [CR]; []])))
              (trace (snd (__init__ (initial_state true [[CR]; [CR]; []]))))) /\
  ~ In (ev_print msg_warning)
       (skipn (length (trace (initial_state true [[CR]; [CR]; []])))
              (trace (snd (__init__ (initial_state true [[CR]; [CR]; []]))))).
Proof.
  apply (init_short_status [CR] [CR] [] [] (initial_state true [[CR]; [CR]; []])).
  - reflexivity.
  - reflexivity.
  - reflexivity.
  - cbn [length]. lia.
  - cbn [length]. lia.
  - cbn [length]. lia.
Defined.


(** * Properties of the control panel *)

(** Unfolds the callbacks' monad and projects the panel. *)
Ltac run_gui :=
  repeat progress
    (unfold gbind, gret, gfail, show, time_sleep, float_of, int_of, getitem,
       textdisp2;
     cbn [MP285 entry1 entry2 entry3 entry4 entry5 entry6 entry7 listpossave
          listpausesave screen slept set_MP285 set_listpossave
          set_listpausesave put nap fill fst snd]).

(** ** Python's lists *)

Lemma Forall_firstn_of {A} (P : A -> Prop) (n : nat) (l : list A) :
  Forall P l -> Forall P (firstn n l).
Proof.
  intros H. rewrite <- (firstn_skipn n l) in H.
  apply Forall_app in H. apply H.
Qed.

Lemma Forall_skipn_of {A} (P : A -> Prop) (n : nat) (l : list A) :
  Forall P l -> Forall P (skipn n l).
Proof.
  intros H. rewrite <- (firstn_skipn n l) in H.
  apply Forall_app in H. apply H.
Qed.

Lemma py_index_bound {A} (j : Z) (l : list A) (k : nat) :
  py_index j l = Some k -> (k < length l)%nat.
Proof.
  unfold py_index. cbv zeta.
  destruct ((0 <=? _) && (_ <? _)) eqn:E; [|discriminate].
  intros H; injection H as <-.
  apply andb_prop in E. destruct E as [E1 E2].
  apply Z.leb_le in E1. apply Z.ltb_lt in E2. lia.
Qed.

Lemma py_index_nat {A} (i : nat) (l : list A) :
  (i < length l)%nat -> py_index (Z.of_nat i) l = Some i.
Proof.
  intros H. unfold py_index. cbv zeta.
  destruct (Z.ltb_spec (Z.of_nat i) 0); [lia|].
  destruct (Z.leb_spec 0 (Z.of_nat i)); [|lia].
  destruct (Z.ltb_spec (Z.of_nat i) (Z.of_nat (length l))); [|lia].
  cbn [andb]. rewrite Nat2Z.id. reflexivity.
Qed.

Lemma py_getitem_In {A} (j : Z) (l : list A) (a : A) :
  py_getitem j l = Some a -> In a l.
Proof.
  unfold py_getitem. destruct (py_index j l) as [k|]; [|discriminate].
  apply nth_error_In.
Qed.


Lemma py_del_length {A} (j : Z) (l l' : list A) :
  py_del j l = Some l' -> length l = S (length l').
Proof.
  unfold py_del. destruct (py_index j l) as [k|] eqn:E; [|discriminate].
  apply py_index_bound in E. intros H.
  assert (l' = firstn k l ++ skipn (S k) l) as -> by congruence.
  rewrite length_app, length_firstn, length_skipn. lia.
Qed.

Lemma py_del_Forall {A} (P : A -> Prop) (j : Z) (l l' : list A) :
  py_del j l = Some l' -> Forall P l -> Forall P l'.
Proof.
  unfold py_del. destruct (py_index j l) as [k|]; [|discriminate].
  intros H HP.
  assert (l' = firstn k l ++ skipn (S k) l) as -> by congruence.
  apply Forall_app. split; [apply Forall_firstn_of | apply Forall_skipn_of]; exact HP.
Qed.

Lemma insert_at_length {A} (j : Z) (x : A) (l : list A) :
  length (insert_at j x l) = S (length l).
Proof.
  unfold insert_at. cbv zeta.
  set (k := Z.to_nat _).
  rewrite length_app. cbn [length]. rewrite length_firstn, length_skipn. lia.
Qed.

Lemma insert_at_Forall {A} (P : A -> Prop) (j : Z) (x : A) (l : list A) :
  P x -> Forall P l -> Forall P (insert_at j x l).
Proof.
  intros Hx Hl. unfold insert_at. cbv zeta.
  apply Forall_app. split; [apply Forall_firstn_of, Hl|].
  constructor; [exact Hx | apply Forall_skipn_of, Hl].
Qed.

Lemma insert_at_nat {A} (i : nat) (x : A) (l : list A) :
  (i <= length l)%nat ->
  insert_at (Z.of_nat i) x l = firstn i l ++ x :: skipn i l.
Proof.
  intros H. unfold insert_at. cbv zeta.
  destruct (Z.ltb_spec (Z.of_nat i) 0); [lia|].
  rewrite Z.min_l by lia. rewrite Nat2Z.id. reflexivity.
Qed.

(** An index the conversion accepts: the insertion takes place. *)
Lemma py_insert_fits {A} (j : Z) (x : A) (l : list A) :
  - 2 ^ 31 <= j <= 2 ^ 31 - 1 \/ Z.abs j <= Z.of_nat (length l) ->
  py_insert j x l = Some (insert_at j x l).
Proof.
  intros H. unfold py_insert, Py_ssize_t_fits.
  destruct (Z.leb_spec (- 2 ^ 31) j); destruct (Z.leb_spec j (2 ^ 31 - 1));
    destruct (Z.leb_spec (Z.abs j) (Z.of_nat (length l)));
    cbn [andb orb]; try reflexivity; lia.
Qed.

(** Deleting at the index of an insertion undoes it, for an index from 0
    to the length of the list. *)
Lemma py_del_insert {A} (i : nat) (x : A) (l : list A) :
  (i <= length l)%nat ->
  py_del (Z.of_nat i) (insert_at (Z.of_nat i) x l) = Some l.
Proof.
  intros H. unfold py_del.
  rewrite py_index_nat by (rewrite insert_at_length; lia).
  rewrite insert_at_nat by exact H.
  assert (Hlen : length (firstn i l) = i) by (rewrite length_firstn; lia).
  rewrite firstn_app, Hlen, Nat.sub_diag, firstn_firstn, Nat.min_id.
  cbn [firstn]. rewrite app_nil_r.
  rewrite skipn_app, Hlen.
  rewrite (skipn_all2 (n := S i)) by lia.
  replace (S i - i)%nat with 1%nat by lia.
  cbn [skipn app]. rewrite firstn_skipn. reflexivity.
Qed.

Lemma map_add_length (a b s : list Q) :
  map_add a b = Some s -> length s = length b.
Proof.
  revert b s. induction a as [|x a IH]; intros [|y b] s; cbn [map_add];
    try discriminate.
  - intros H; injection H as <-. reflexivity.
  - destruct (map_add a b) as [r|] eqn:E; [|discriminate].
    cbn [option_map]. intros H; injection H as <-.
    cbn [length]. rewrite (IH b r E). reflexivity.
Qed.

Lemma map_add_3 (a b c x y z : Q) :
  map_add [a; b; c] [x; y; z] = Some [a + x; b + y; c + z]%Q.
Proof. reflexivity. Qed.

Lemma step_rows_aligned (i : nat) (poss : list (list Q)) (pauses : list Q) :
  (length poss <= length pauses)%nat ->
  exists rows, step_rows i poss pauses = Some rows.
Proof.
  revert i pauses. induction poss as [|pos poss IH]; intros i pauses H.
  - eexists; reflexivity.
  - destruct pauses as [|pause pauses]; [cbn [length] in H; lia|].
    cbn [length] in H.
    destruct (IH (S i) pauses ltac:(lia)) as [rows E].
    cbn [step_rows]. rewrite E. eexists; reflexivity.
Qed.

(** ** What the callbacks do to the two lists *)

Ltac gcrunch :=
  repeat (run_gui;
          match goal with
          | |- context [match ?x with _ => _ end] =>
              lazymatch type of x with
              | bool => destruct x
              | option _ => destruct x
              | list _ => destruct x
              end
          end);
  run_gui.

Lemma driver_keeps {A} (m : M A) (p : panel) :
  listpossave (snd (driver m p)) = listpossave p /\
  listpausesave (snd (driver m p)) = listpausesave p.
Proof.
  unfold driver. destruct (m (MP285 p)) as [[a|e] st']; split; reflexivity.
Qed.

Lemma textdisp_keeps (p : panel) :
  listpossave (snd (textdisp p)) = listpossave p /\
  listpausesave (snd (textdisp p)) = listpausesave p /\
  MP285 (snd (textdisp p)) = MP285 p.
Proof.
  unfold textdisp.
  destruct (listpossave p) eqn:E; run_gui; [rewrite E; auto|].
  destruct (step_rows _ _ _); run_gui; rewrite E; auto.
Qed.

Lemma textdisp_aligned (p : panel) :
  (length (listpossave p) <= length (listpausesave p))%nat ->
  fst (textdisp p) = Done tt.
Proof.
  intros H. unfold textdisp.
  destruct (listpossave p) as [|t l] eqn:E; [reflexivity|].
  destruct (step_rows_aligned 0 (t :: l) (listpausesave p) H) as [rows Er].
  rewrite Er. reflexivity.
Qed.

Lemma gbind_keeps {A B} (m : G A) (k : A -> G B) :
  (forall p, listpossave (snd (m p)) = listpossave p /\
             listpausesave (snd (m p)) = listpausesave p) ->
  (forall a p, listpossave (snd (k a p)) = listpossave p /\
               listpausesave (snd (k a p)) = listpausesave p) ->
  forall p, listpossave (snd (gbind m k p)) = listpossave p /\
            listpausesave (snd (gbind m k p)) = listpausesave p.
Proof.
  intros Hm Hk p. unfold gbind. specialize (Hm p).
  destruct (m p) as [[a|f] p1]; cbn [snd] in *; [|exact Hm].
  destruct (Hk a p1) as [K1 K2]. destruct Hm as [M1 M2].
  rewrite K1, K2. auto.
Qed.

Lemma getitem_keeps {A} (l : panel -> list A) (j : Z) (p : panel) :
  snd (getitem l j p) = p.
Proof. unfold getitem. destruct (py_getitem j (l p)); reflexivity. Qed.

Lemma time_sleep_keeps (d : Q) (p : panel) :
  listpossave (snd (time_sleep d p)) = listpossave p /\
  listpausesave (snd (time_sleep d p)) = listpausesave p /\
  MP285 (snd (time_sleep d p)) = MP285 p.
Proof.
  unfold time_sleep.
  destruct (Qle_bool 0 d); [destruct (Qle_bool (d * 1000) 4294967295)|];
    repeat split; reflexivity.
Qed.

Lemma multirun_loop_keeps (todo i : nat) (p : panel) :
  listpossave (snd (multirun_loop todo i p)) = listpossave p /\
  listpausesave (snd (multirun_loop todo i p)) = listpausesave p.
Proof.
  revert i p. induction todo as [|todo IH]; intros i p; [split; reflexivity|].
  cbn [multirun_loop]. revert p.
  repeat (apply gbind_keeps;
          [intros p; first [rewrite getitem_keeps; auto
                           | apply driver_keeps
                           | split; apply time_sleep_keeps
                           | split; reflexivity
                           | destruct (_ =? _); split; reflexivity]
          | intros ?]).
  apply IH.
Qed.

Lemma multirun_keeps (p : panel) :
  listpossave (snd (multirun p)) = listpossave p /\
  listpausesave (snd (multirun p)) = listpausesave p.
Proof.
  unfold multirun. destruct (listpossave p) eqn:E.
  - run_gui. rewrite E. auto.
  - rewrite <- E. apply multirun_loop_keeps.
Qed.

(** After [textdisp], which ends the callbacks that edit the lists. *)
Ltac after_textdisp :=
  match goal with
  | |- context [textdisp ?q] =>
      let K1 := fresh "K" in let K2 := fresh "K" in let K3 := fresh "K" in
      destruct (textdisp_keeps q) as (K1 & K2 & K3);
      destruct (textdisp q) as [[[]|?] ?];
      cbn [fst snd listpossave listpausesave] in *;
      rewrite ?K1, ?K2
  end.

Lemma savepos_effect (p : panel) :
  (listpossave (snd (savepos p)) = listpossave p \/
   exists s, length s = 3%nat /\
             listpossave (snd (savepos p)) = listpossave p ++ [s]) /\
  (fst (savepos p) = Done tt ->
   exists pause s,
     listpossave (snd (savepos p)) = listpossave p ++ [s] /\
     listpausesave (snd (savepos p)) = listpausesave p ++ [pause]).
Proof.
  destruct p as [st [x|] [y|] [z|] [pause|] e5 e6 e7 lp ps sc sl];
    unfold savepos, entries_tup; run_gui;
    try (split; [left; reflexivity | discriminate]).
  destruct lp as [|t l]; run_gui.
  - after_textdisp; run_gui.
    + split; [right; exists [x; y; z]; auto | intros _; eauto].
    + split; [right; exists [x; y; z]; auto | discriminate].
  - destruct (py_getitem (-1) (t :: l)) as [prev|]; run_gui;
      [|split; [left; reflexivity | discriminate]].
    destruct (map_add prev [x; y; z]) as [s|] eqn:E; run_gui;
      [|split; [left; reflexivity | discriminate]].
    apply map_add_length in E. cbn [length] in E.
    after_textdisp; run_gui.
    + split; [right; exists s; auto | intros _; eauto].
    + split; [right; exists s; auto | discriminate].
Qed.

Lemma listinsert_effect (p : panel) :
  (listpossave (snd (listinsert p)) = listpossave p \/
   exists j tup, length tup = 3%nat /\
                 listpossave (snd (listinsert p)) = insert_at j tup (listpossave p)) /\
  (fst (listinsert p) = Done tt ->
   listpossave p = [] /\ snd (listinsert p) = p \/
   exists j tup pause,
     listpossave (snd (listinsert p)) = insert_at j tup (listpossave p) /\
     listpausesave (snd (listinsert p)) = insert_at j pause (listpausesave p)).
Proof.
  destruct p as [st e1 e2 e3 e4 e5 e6 e7 [|t l] ps sc sl]; unfold listinsert;
    cbn [listpossave].
  { split; [left; reflexivity | intros _; left; auto]. }
  destruct e5 as [j|]; run_gui;
    [|split; [left; reflexivity | discriminate]].
  unfold entries_tup. run_gui.
  destruct e1 as [x|]; run_gui; [|split; [left; reflexivity | discriminate]].
  destruct e2 as [y|]; run_gui; [|split; [left; reflexivity | discriminate]].
  destruct e3 as [z|]; run_gui; [|split; [left; reflexivity | discriminate]].
  unfold py_insert.
  destruct (Py_ssize_t_fits j (t :: l)); run_gui;
    [|split; [left; reflexivity | discriminate]].
  destruct e4 as [pause|]; run_gui;
    [|split; [right; exists j, [x; y; z]; auto | discriminate]].
  destruct (Py_ssize_t_fits j ps); run_gui;
    [|split; [right; exists j, [x; y; z]; auto | discriminate]].
  after_textdisp; run_gui.
  - split; [right; exists j, [x; y; z]; auto | intros _; right; eauto].
  - split; [right; exists j, [x; y; z]; auto | discriminate].
Qed.

Lemma removeelem_effect (p : panel) :
  (listpossave (snd (removeelem p)) = listpossave p \/
   exists j, py_del j (listpossave p) = Some (listpossave (snd (removeelem p)))) /\
  (fst (removeelem p) = Done tt ->
   snd (removeelem p) = p \/
   exists j,
     py_del j (listpossave p) = Some (listpossave (snd (removeelem p))) /\
     py_del j (listpausesave p) = Some (listpausesave (snd (removeelem p)))).
Proof.
  destruct p as [st e1 e2 e3 e4 [j|] e6 e7 lp ps sc sl]; unfold removeelem;
    run_gui; [|split; [left; reflexivity | discriminate]].
  destruct (j <? Z.of_nat (length lp)); run_gui;
    [|split; [left; reflexivity | intros _; left; reflexivity]].
  destruct (py_del j lp) as [lp'|] eqn:E1; run_gui;
    [|split; [left; reflexivity | discriminate]].
  destruct (py_del j ps) as [ps'|] eqn:E2; run_gui;
    [|split; [right; exists j; exact E1 | discriminate]].
  after_textdisp; run_gui.
  - split; [right; exists j; exact E1 | intros _; right; exists j; auto].
  - split; [right; exists j; exact E1 | discriminate].
Qed.

Lemma unchanged_keeps {A} (m : G A) :
  (forall p, snd (m p) = p) ->
  forall p, listpossave (snd (m p)) = listpossave p /\
            listpausesave (snd (m p)) = listpausesave p.
Proof. intros H p. rewrite H. auto. Qed.

Lemma float_of_unchanged (e : panel -> option Q) (p : panel) : snd (float_of e p) = p.
Proof. unfold float_of. destruct (e p); reflexivity. Qed.

Lemma int_of_unchanged (e : panel -> option Z) (p : panel) : snd (int_of e p) = p.
Proof. unfold int_of. destruct (e p); reflexivity. Qed.

Lemma entries_tup_unchanged (p : panel) : snd (entries_tup p) = p.
Proof.
  unfold entries_tup, gbind, float_of, gret.
  destruct (entry1 p); [|reflexivity].
  destruct (entry2 p); [|reflexivity].
  destruct (entry3 p); reflexivity.
Qed.

(** The buttons that do not edit the lists. *)
Lemma other_buttons_keep (b : button) (p : panel) :
  b <> clearlistbutton -> b <> savebutton -> b <> insertelem -> b <> removeelement ->
  listpossave (snd (press b p)) = listpossave p /\
  listpausesave (snd (press b p)) = listpausesave p.
Proof.
  intros H1 H2 H3 H4.
  destruct b; try contradiction; cbn [press];
    unfold dispgetstat, getposdisp, movearun, disconnect, setorig, resetsutter,
      setVel, textdisp2;
    try (revert p;
         repeat (apply gbind_keeps;
                 [first [apply driver_keeps
                        | apply (unchanged_keeps _ entries_tup_unchanged)
                        | apply (unchanged_keeps _ (int_of_unchanged _))
                        | intros p; split; reflexivity]
                 | intros ?]);
         first [apply driver_keeps | intros p; split; reflexivity]).
  - destruct (textdisp_keeps p) as (K1 & K2 & _). auto.
  - apply multirun_keeps.
Qed.

(** X10.  Every saved position has three coordinates, and no button
    changes that: whatever the entries hold and however the call ends. *)
Theorem positions_stay_triples (b : button) (p : panel) :
  triples p -> triples (snd (press b p)).
Proof.
  unfold triples. intros H.
  destruct b;
    try (match goal with
         | |- context [press ?b p] =>
             rewrite (proj1 (other_buttons_keep b p
                               ltac:(discriminate) ltac:(discriminate)
                               ltac:(discriminate) ltac:(discriminate)))
         end; exact H).
  - cbn [press].
    change (snd (clearlist p))
      with (snd (textdisp (set_listpausesave [] (set_listpossave [] p)))).
    destruct (textdisp_keeps
                (set_listpausesave [] (set_listpossave [] p))) as (K & _ & _).
    rewrite K. constructor.
  - cbn [press]. destruct (savepos_effect p) as [[E|(s & Hs & E)] _]; rewrite E.
    + exact H.
    + apply Forall_app. split; [exact H | constructor; [exact Hs | constructor]].
  - cbn [press].
    destruct (listinsert_effect p) as [[E|(j & tup & Ht & E)] _]; rewrite E.
    + exact H.
    + apply insert_at_Forall; assumption.
  - cbn [press]. destruct (removeelem_effect p) as [[E|(j & E)] _].
    + rewrite E. exact H.
    + exact (py_del_Forall _ _ _ _ E H).
Qed.

(** X11.  A button that returns normally leaves the two lists of equal
    length if they were. *)
Theorem lists_stay_aligned (b : button) (p : panel) :
  aligned p ->
  fst (press b p) = Done tt ->
  aligned (snd (press b p)).
Proof.
  unfold aligned. intros H Hdone.
  destruct b;
    try (match goal with
         | |- context [press ?b p] =>
             destruct (other_buttons_keep b p
                         ltac:(discriminate) ltac:(discriminate)
                         ltac:(discriminate) ltac:(discriminate)) as [K1 K2]
         end; rewrite K1, K2; exact H).
  - cbn [press].
    change (snd (clearlist p))
      with (snd (textdisp (set_listpausesave [] (set_listpossave [] p)))).
    destruct (textdisp_keeps
                (set_listpausesave [] (set_listpossave [] p))) as (K1 & K2 & _).
    rewrite K1, K2. reflexivity.
  - cbn [press] in *. destruct (savepos_effect p) as [_ E].
    destruct (E Hdone) as (pause & s & E1 & E2).
    rewrite E1, E2, !length_app. cbn [length]. lia.
  - cbn [press] in *. destruct (listinsert_effect p) as [_ E].
    destruct (E Hdone) as [[_ E0]|(j & tup & pause & E1 & E2)].
    + rewrite E0. exact H.
    + rewrite E1, E2, !insert_at_length. lia.
  - cbn [press] in *. destruct (removeelem_effect p) as [_ E].
    destruct (E Hdone) as [E0|(j & E1 & E2)].
    + rewrite E0. exact H.
    + apply py_del_length in E1, E2. lia.
Qed.

(** ** Running the saved positions *)








(** ** The length check of [gotoPosition] is out of reach *)

Lemma gotoPosition_xyzb_no_exit (pos : list Q) (st : state) (c : Z) :
  fst (gotoPosition_xyzb pos st) <> Raise (SystemExit c).
Proof.
  unfold gotoPosition_xyzb.
  destruct st as [[v tO cn [m|] vs cv] p pp clk tr];
    destruct pos as [|p0 [|p1 [|p2 pos]]]; run_io; try discriminate.
  destruct (Struct.pack_lll _ _ _); run_io; discriminate.
Qed.

Lemma gotoPosition_no_exit (pos : list Q) (st : state) (c : Z) :
  length pos = 3%nat -> fst (gotoPosition pos st) <> Raise (SystemExit c).
Proof.
  intros Hlen.
  pose proof (gotoPosition_xyzb_pure pos st) as Hpure.
  pose proof (gotoPosition_xyzb_no_exit pos st c) as Hx.
  unfold gotoPosition. run_io. rewrite Hlen. cbn [Nat.eqb negb]. run_io.
  destruct (gotoPosition_xyzb pos st) as [[xyzb|e] st1];
    cbn [fst snd] in *; subst st1; [|intros E; apply Hx; congruence].
  destruct st as [a [o w rs] pp clk tr]. crunch; discriminate.
Qed.

Lemma setVelocity_velb_no_exit (Vel vScalF : Z) (st : state) (c : Z) :
  fst (setVelocity_velb Vel vScalF st) <> Raise (SystemExit c).
Proof.
  unfold setVelocity_velb. unfold bind at 1. unfold struct_call at 1.
  destruct (Struct.pack_H Vel) as [velb|]; [|discriminate].
  unfold ret at 1.
  destruct (vScalF =? 50); [|discriminate].
  destruct velb as [|b0 [|b1 velb]]; try discriminate.
  run_io. cbn [Struct.unpack_B].
  destruct (Struct.pack_B (ord b1 + 128)); discriminate.
Qed.

Lemma methods_no_exit (st : state) (c : Z) :
  fst (getStatus st) <> Raise (SystemExit c) /\
  fst (getPosition st) <> Raise (SystemExit c) /\
  fst (setOrigin st) <> Raise (SystemExit c) /\
  fst (sendReset st) <> Raise (SystemExit c) /\
  fst (updatePanel st) <> Raise (SystemExit c) /\
  fst (__del__ st) <> Raise (SystemExit c) /\
  (forall Vel vScalF, fst (setVelocity Vel vScalF st) <> Raise (SystemExit c)).
Proof.
  repeat split.
  - destruct st as [a [o w rs] pp clk tr]. unfold getStatus. crunch; discriminate.
  - destruct st as [a [o w rs] pp clk tr].
    unfold getPosition, getPosition_xyz_um. crunch; discriminate.
  - destruct st as [a [o w rs] pp clk tr]. unfold setOrigin. crunch; discriminate.
  - destruct st as [a [o w rs] pp clk tr]. unfold sendReset. crunch; discriminate.
  - destruct st as [a [o w rs] pp clk tr]. unfold updatePanel. crunch; discriminate.
  - destruct st as [a [o w rs] pp clk tr]. unfold __del__. crunch; discriminate.
  - intros Vel vScalF.
    pose proof (setVelocity_velb_pure Vel vScalF st) as Hpure.
    pose proof (setVelocity_velb_no_exit Vel vScalF st c) as Hx.
    unfold setVelocity, bind.
    destruct (setVelocity_velb Vel vScalF st) as [[velb|e] st1];
      cbn [fst snd] in *; subst st1; [|intros E; apply Hx; congruence].
    destruct st as [a [o w rs] pp clk tr]. crunch; discriminate.
Qed.

Lemma driver_no_exit {A} (m : M A) (p : panel) (c : Z) :
  fst (m (MP285 p)) <> Raise (SystemExit c) ->
  fst (driver m p) <> Failed (raised (SystemExit c)).
Proof.
  unfold driver. destruct (m (MP285 p)) as [[a|e] st']; cbn [fst].
  - discriminate.
  - intros H E. apply H. congruence.
Qed.

Lemma gbind_no_exit {A B} (m : G A) (k : A -> G B) (p : panel) (c : Z) :
  fst (m p) <> Failed (raised (SystemExit c)) ->
  (forall a p', m p = (Done a, p') ->
                fst (k a p') <> Failed (raised (SystemExit c))) ->
  fst (gbind m k p) <> Failed (raised (SystemExit c)).
Proof.
  intros Hm Hk. unfold gbind.
  destruct (m p) as [[a|f] p'] eqn:E; cbn [fst] in *;
    [|intros E'; apply Hm; congruence].
  apply Hk. reflexivity.
Qed.

Lemma entries_tup_done (p p' : panel) (tup : list Q) :
  entries_tup p = (Done tup, p') -> length tup = 3%nat.
Proof.
  unfold entries_tup, gbind, float_of, gret.
  destruct (entry1 p); [|discriminate].
  destruct (entry2 p); [|discriminate].
  destruct (entry3 p); [|discriminate].
  intros H; injection H as <- _. reflexivity.
Qed.

Lemma entries_tup_no_exit (p : panel) (c : Z) :
  fst (entries_tup p) <> Failed (raised (SystemExit c)).
Proof.
  unfold entries_tup, gbind, float_of, gret.
  destruct (entry1 p); [|discriminate].
  destruct (entry2 p); [|discriminate].
  destruct (entry3 p); discriminate.
Qed.

Lemma textdisp_no_exit (p : panel) (c : Z) :
  fst (textdisp p) <> Failed (raised (SystemExit c)).
Proof.
  unfold textdisp. destruct (listpossave p); run_gui; [discriminate|].
  destruct (step_rows _ _ _); run_gui; discriminate.
Qed.

Lemma multirun_loop_no_exit (c : Z) (todo : nat) :
  forall (i : nat) (p : panel),
    triples p ->
    fst (multirun_loop todo i p) <> Failed (raised (SystemExit c)).
Proof.
  induction todo as [|todo IH]; intros i p Htri; [discriminate|].
  cbn [multirun_loop].
  apply gbind_no_exit;
    [unfold getitem; destruct (py_getitem _ _); discriminate|].
  intros pos p1 E1.
  assert (p1 = p) as -> by (rewrite <- (getitem_keeps listpossave (Z.of_nat i) p);
                            rewrite E1; reflexivity).
  apply gbind_no_exit;
    [unfold getitem; destruct (py_getitem _ _); discriminate|].
  intros pause p2 E2.
  assert (p2 = p) as -> by (rewrite <- (getitem_keeps listpausesave (Z.of_nat i) p);
                            rewrite E2; reflexivity).
  apply gbind_no_exit; [discriminate|].
  intros [] p3 E3. unfold show in E3. injection E3 as <-.
  apply gbind_no_exit;
    [unfold getitem; destruct (py_getitem _ _); discriminate|].
  intros pos' p4 E4.
  assert (Hin : In pos' (listpossave p)).
  { unfold getitem in E4. cbn [put listpossave] in E4.
    destruct (py_getitem (Z.of_nat i) (listpossave p)) as [x|] eqn:Eg;
      [|discriminate E4].
    injection E4 as <- _. exact (py_getitem_In _ _ _ Eg). }
  assert (p4 = put (txt_processing i pos pause) p) as ->
    by (rewrite <- (getitem_keeps listpossave (Z.of_nat i)
                      (put (txt_processing i pos pause) p));
        rewrite E4; reflexivity).
  assert (Hlen : length pos' = 3%nat).
  { unfold triples in Htri. rewrite Forall_forall in Htri. exact (Htri _ Hin). }
  apply gbind_no_exit; [apply driver_no_exit, gotoPosition_no_exit, Hlen|].
  intros [] p5 E5.
  assert (K5 : listpossave p5 = listpossave p).
  { destruct (driver_keeps (gotoPosition pos')
                (put (txt_processing i pos pause) p)) as [K _].
    rewrite E5 in K. exact K. }
  apply gbind_no_exit;
    [unfold getitem; destruct (py_getitem _ _); discriminate|].
  intros pause' p6 E6.
  assert (p6 = p5) as -> by (rewrite <- (getitem_keeps listpausesave (Z.of_nat i) p5);
                             rewrite E6; reflexivity).
  apply gbind_no_exit;
    [unfold time_sleep; destruct (Qle_bool 0 _);
       [destruct (Qle_bool _ _)|]; discriminate|].
  intros [] p7 E7.
  assert (K7 : listpossave p7 = listpossave p5).
  { destruct (time_sleep_keeps pause' p5) as [K _].
    rewrite E7 in K. exact K. }
  apply gbind_no_exit; [destruct (_ =? _); discriminate|].
  intros [] p8 E8.
  apply IH. unfold triples.
  destruct (_ =? _) in E8; injection E8 as <-;
    cbn [put listpossave]; rewrite K7, K5; exact Htri.
Qed.

(** X13.  No button can end the program through the length check of
    [gotoPosition]: Go-to-position always passes three coordinates, Run
    passes saved positions, which keep three coordinates, and no other
    callback raises [SystemExit]. *)
Theorem no_button_exits (b : button) (p : panel) (c : Z) :
  triples p ->
  fst (press b p) <> Failed (raised (SystemExit c)).
Proof.
  intros Htri.
  destruct (methods_no_exit (MP285 p) c)
    as (Hstat & Hpos & Horig & Hreset & Hpanel & Hdel & Hvel).
  destruct b; cbn [press].
  - unfold dispgetstat. apply gbind_no_exit;
      [apply driver_no_exit, Hstat | intros; discriminate].
  - unfold getposdisp. apply gbind_no_exit;
      [apply driver_no_exit, Hpos | intros; discriminate].
  - unfold movearun. apply gbind_no_exit; [apply entries_tup_no_exit|].
    intros tup p' E. pose proof (entries_tup_done _ _ _ E) as Hlen.
    apply gbind_no_exit;
      [apply driver_no_exit, gotoPosition_no_exit, Hlen | intros; discriminate].
  - unfold disconnect. apply gbind_no_exit;
      [apply driver_no_exit, Hdel | intros; discriminate].
  - unfold setorig. apply gbind_no_exit;
      [apply driver_no_exit, Horig | intros; discriminate].
  - unfold resetsutter. apply gbind_no_exit; [discriminate|].
    intros [] p' E. unfold textdisp2, show in E. injection E as <-.
    apply driver_no_exit. cbn [put MP285]. exact Hreset.
  - unfold setVel.
    apply gbind_no_exit; [unfold int_of; destruct (entry6 p); discriminate|].
    intros v p1 E1.
    assert (p1 = p) as -> by (rewrite <- (int_of_unchanged entry6 p);
                              rewrite E1; reflexivity).
    apply gbind_no_exit; [unfold int_of; destruct (entry7 p); discriminate|].
    intros s p2 E2.
    assert (p2 = p) as -> by (rewrite <- (int_of_unchanged entry7 p);
                              rewrite E2; reflexivity).
    apply gbind_no_exit;
      [apply driver_no_exit, Hvel | intros; discriminate].
  - apply driver_no_exit, Hpanel.
  - unfold clearlist. apply gbind_no_exit; [discriminate|].
    intros; apply textdisp_no_exit.
  - apply textdisp_no_exit.
  - destruct p as [st e1 e2 e3 e4 e5 e6 e7 lp ps sc sl].
    unfold savepos, entries_tup, textdisp. gcrunch; discriminate.
  - unfold multirun. destruct (listpossave p) eqn:E; [discriminate|].
    apply multirun_loop_no_exit, Htri.
  - destruct p as [st e1 e2 e3 e4 e5 e6 e7 lp ps sc sl].
    unfold listinsert, entries_tup, textdisp. gcrunch; discriminate.
  - destruct p as [st e1 e2 e3 e4 e5 e6 e7 lp ps sc sl].
    unfold removeelem, textdisp. gcrunch; discriminate.
Qed.

(** ** Saving, inserting and removing *)

Lemma py_getitem_last {A} (l : list A) (t : A) :
  py_getitem (-1) (l ++ [t]) = Some t.
Proof.
  unfold py_getitem, py_index. cbv zeta.
  rewrite length_app. cbn [length].
  change (-1 <? 0) with true. cbv iota.
  replace (-1 + Z.of_nat (length l + 1)) with (Z.of_nat (length l)) by lia.
  destruct (Z.leb_spec 0 (Z.of_nat (length l))); [|lia].
  destruct (Z.ltb_spec (Z.of_nat (length l)) (Z.of_nat (length l + 1))); [|lia].
  cbn [andb]. rewrite Nat2Z.id.
  rewrite nth_error_app2 by lia. rewrite Nat.sub_diag. reflexivity.
Qed.

(** What Save does to the lists when the four entries hold numbers. *)
Lemma savepos_lists (p : panel) (x y z pause : Q) :
  entry1 p = Some x -> entry2 p = Some y -> entry3 p = Some z ->
  entry4 p = Some pause ->
  listpausesave (snd (savepos p)) = listpausesave p ++ [pause] /\
  (listpossave p = [] -> listpossave (snd (savepos p)) = [[x; y; z]]) /\
  (forall l a b c,
      listpossave p = l ++ [[a; b; c]] ->
      listpossave (snd (savepos p)) = listpossave p ++ [[a + x; b + y; c + z]%Q]).
Proof.
  intros E1 E2 E3 E4.
  destruct p as [st e1 e2 e3 e4 e5 e6 e7 lp ps sc sl].
  cbn [entry1 entry2 entry3 entry4 listpossave listpausesave] in *. subst.
  unfold savepos, entries_tup. run_gui.
  destruct lp as [|t lp]; run_gui.
  - after_textdisp; run_gui;
      (split; [reflexivity | split; [reflexivity|]]);
      intros l a b c H; destruct l; discriminate H.
  - assert (Hlast : forall l a b c, t :: lp = l ++ [[a; b; c]] ->
                py_getitem (-1) (t :: lp) = Some [a; b; c]).
    { intros l a b c ->. apply py_getitem_last. }
    destruct (py_getitem (-1) (t :: lp)) as [prev|] eqn:Eg; run_gui.
    + destruct (map_add prev [x; y; z]) as [s|] eqn:Em; run_gui.
      * after_textdisp; run_gui;
          (split; [reflexivity | split; [discriminate|]]);
          intros l a b c H; specialize (Hlast l a b c H);
          injection Hlast as ->; cbn in Em; injection Em as <-; reflexivity.
      * split; [reflexivity | split; [discriminate|]].
        intros l a b c H. specialize (Hlast l a b c H).
        injection Hlast as ->. discriminate Em.
    + split; [reflexivity | split; [discriminate|]].
      intros l a b c H. specialize (Hlast l a b c H). discriminate Hlast.
Qed.

Lemma save_all_cons (x y z pause : Q) (steps : list (Q * Q * Q * Q)) (p : panel) :
  save_all ((x, y, z, pause) :: steps) p =
    save_all steps
      (snd (savepos (fill (Some x) (Some y) (Some z) (Some pause)
                          (entry5 p) (entry6 p) (entry7 p) p))).
Proof. reflexivity. Qed.

Lemma save_all_from (steps : list (Q * Q * Q * Q)) :
  forall (p : panel) (l : list (list Q)) (a b c : Q),
    listpossave p = l ++ [[a; b; c]] ->
    listpossave (save_all steps p) = listpossave p ++ totals_from (a, b, c) steps /\
    listpausesave (save_all steps p) =
      listpausesave p ++ map (fun s : Q * Q * Q * Q => snd s) steps.
Proof.
  induction steps as [|[[[x y] z] pause] steps IH]; intros p l a b c Hl.
  - cbn [save_all fold_left totals_from map]. rewrite !app_nil_r. auto.
  - rewrite save_all_cons.
    set (q := fill (Some x) (Some y) (Some z) (Some pause)
                   (entry5 p) (entry6 p) (entry7 p) p).
    destruct (savepos_lists q x y z pause eq_refl eq_refl eq_refl eq_refl)
      as (Hp & _ & Hs).
    specialize (Hs l a b c Hl).
    destruct (IH (snd (savepos q)) (l ++ [[a; b; c]]) (a + x)%Q (b + y)%Q (c + z)%Q)
      as [I1 I2].
    { rewrite Hs. unfold q. cbn [fill listpossave]. rewrite Hl. reflexivity. }
    rewrite I1, I2, Hs, Hp. unfold q. cbn [fill listpossave listpausesave].
    cbn [totals_from map snd]. rewrite <- !app_assoc. auto.
Qed.

(** X14.  Save stores running totals: starting from empty lists, entering
    a sequence of triples and pauses and pressing Save after each leaves in
    [listpossave] the first triple as entered and every later one added to
    the position saved before it, and in [listpausesave] the pauses as
    entered. *)
Theorem save_stores_running_totals (inputs : list (Q * Q * Q * Q)) (p : panel) :
  listpossave p = [] ->
  listpausesave p = [] ->
  listpossave (save_all inputs p) = totals inputs /\
  listpausesave (save_all inputs p) = map (fun s : Q * Q * Q * Q => snd s) inputs.
Proof.
  intros Hl Hp.
  destruct inputs as [|[[[x y] z] pause] steps].
  - cbn [save_all fold_left totals map]. auto.
  - rewrite save_all_cons.
    set (q := fill (Some x) (Some y) (Some z) (Some pause)
                   (entry5 p) (entry6 p) (entry7 p) p).
    destruct (savepos_lists q x y z pause eq_refl eq_refl eq_refl eq_refl)
      as (Hq & Hs & _).
    assert (Hs' : listpossave (snd (savepos q)) = [[x; y; z]])
      by (apply Hs; unfold q; cbn [fill listpossave]; exact Hl).
    destruct (save_all_from steps (snd (savepos q)) [] x y z Hs') as [I1 I2].
    rewrite I1, I2, Hs', Hq. unfold q. cbn [fill listpausesave].
    rewrite Hp. cbn [totals map snd app]. auto.
Qed.

(** X15.  Save appends the pause before it reads the coordinates: when the
    pause entry holds a number and a coordinate entry does not, the call
    ends in [ValueError] with the pause appended and no position appended,
    so that lists that were aligned no longer are. *)
Theorem savepos_out_of_step (p : panel) (pause : Q) :
  entry4 p = Some pause ->
  entry1 p = None \/ entry2 p = None \/ entry3 p = None ->
  fst (press savebutton p) = Failed ValueError /\
  listpossave (snd (press savebutton p)) = listpossave p /\
  listpausesave (snd (press savebutton p)) = listpausesave p ++ [pause] /\
  (aligned p -> ~ aligned (snd (press savebutton p))).
Proof.
  intros E4 Hbad.
  destruct p as [st e1 e2 e3 e4 e5 e6 e7 lp ps sc sl].
  cbn [entry1 entry2 entry3 entry4] in *. subst e4.
  cbn [press]. unfold savepos, entries_tup, aligned.
  destruct e1 as [x|]; [destruct e2 as [y|]; [destruct e3 as [z|]|]|]; run_gui;
    try (repeat split; try reflexivity; rewrite length_app; cbn [length]; lia).
  destruct Hbad as [H|[H|H]]; discriminate H.
Qed.

(** X16.  Insert puts the position into its list before it reads the
    pause: when the lists are not empty, the index is a number that fits 32
    bits, the coordinates are numbers and the pause entry is not, the call
    ends in [ValueError] with the position inserted and no pause inserted.
    (An index beyond [Py_ssize_t] stops the call earlier, in
    [OverflowError], with nothing inserted.) *)
Theorem listinsert_out_of_step (p : panel) (j : Z) (x y z : Q) :
  listpossave p <> [] ->
  entry5 p = Some j ->
  - 2 ^ 31 <= j <= 2 ^ 31 - 1 ->
  entry1 p = Some x -> entry2 p = Some y -> entry3 p = Some z ->
  entry4 p = None ->
  fst (press insertelem p) = Failed ValueError /\
  py_insert j [x; y; z] (listpossave p) = Some (listpossave (snd (press insertelem p))) /\
  listpossave (snd (press insertelem p)) = insert_at j [x; y; z] (listpossave p) /\
  listpausesave (snd (press insertelem p)) = listpausesave p /\
  (aligned p -> ~ aligned (snd (press insertelem p))).
Proof.
  intros Hne E5 Hj E1 E2 E3 E4.
  destruct p as [st e1 e2 e3 e4 e5 e6 e7 lp ps sc sl].
  cbn [entry1 entry2 entry3 entry4 entry5 listpossave] in *. subst.
  cbn [press]. unfold listinsert, entries_tup, aligned.
  destruct lp as [|t lp]; [contradiction|]. run_gui.
  rewrite (py_insert_fits j) by (left; exact Hj). run_gui.
  repeat split; try reflexivity.
  rewrite insert_at_length. lia.
Qed.

Lemma textdisp_run (p : panel) :
  (length (listpossave p) <= length (listpausesave p))%nat ->
  exists sc',
    textdisp p =
      (Done tt,
       mkPanel (MP285 p) (entry1 p) (entry2 p) (entry3 p) (entry4 p) (entry5 p)
               (entry6 p) (entry7 p) (listpossave p) (listpausesave p) sc' (slept p)).
Proof.
  intros H. unfold textdisp.
  destruct (listpossave p) as [|t l] eqn:E.
  - eexists. unfold show, put. rewrite E. reflexivity.
  - destruct (step_rows_aligned 0 (t :: l) (listpausesave p) H) as [rows Er].
    rewrite Er. eexists. unfold show, put. rewrite E. reflexivity.
Qed.

Lemma py_del_nat {A} (i : nat) (l : list A) :
  (i < length l)%nat ->
  py_del (Z.of_nat i) l = Some (firstn i l ++ skipn (S i) l).
Proof. intros H. unfold py_del. rewrite py_index_nat by exact H. reflexivity. Qed.

Lemma py_del_below {A} (j : Z) (l : list A) :
  j < - Z.of_nat (length l) -> py_del j l = None.
Proof.
  intros H. unfold py_del, py_index. cbv zeta.
  destruct (Z.ltb_spec j 0); [|lia].
  destruct (Z.leb_spec 0 (j + Z.of_nat (length l))); [lia|].
  reflexivity.
Qed.

(** X17.  Remove acts by the index in the index entry.  With aligned
    lists: an index from 0 up to the last one removes the position and the
    pause of that index; an index at or beyond the length changes nothing
    and says nothing; an index below minus the length ends in [IndexError]
    with both lists intact. *)
Theorem removeelem_by_index (p : panel) (j : Z) :
  entry5 p = Some j ->
  aligned p ->
  (0 <= j < Z.of_nat (length (listpossave p)) ->
   fst (press removeelement p) = Done tt /\
   listpossave (snd (press removeelement p)) =
     firstn (Z.to_nat j) (listpossave p) ++ skipn (S (Z.to_nat j)) (listpossave p) /\
   listpausesave (snd (press removeelement p)) =
     firstn (Z.to_nat j) (listpausesave p) ++ skipn (S (Z.to_nat j)) (listpausesave p)) /\
  (Z.of_nat (length (listpossave p)) <= j ->
   press removeelement p = (Done tt, p)) /\
  (j < - Z.of_nat (length (listpossave p)) ->
   fst (press removeelement p) = Failed (raised IndexError) /\
   listpossave (snd (press removeelement p)) = listpossave p /\
   listpausesave (snd (press removeelement p)) = listpausesave p).
Proof.
  intros E5 Hal.
  destruct p as [st e1 e2 e3 e4 e5 e6 e7 lp ps sc sl].
  unfold aligned in Hal.
  cbn [entry5 listpossave listpausesave] in *. subst e5.
  cbn [press]. unfold removeelem. run_gui.
  split; [|split].
  - intros Hj.
    assert (Ej : j = Z.of_nat (Z.to_nat j)) by lia.
    set (i := Z.to_nat j) in *. clearbody i. subst j.
    destruct (Z.ltb_spec (Z.of_nat i) (Z.of_nat (length lp))); [|lia].
    repeat (rewrite py_del_nat by lia; run_gui).
    match goal with
    | |- context [textdisp ?q] =>
        destruct (textdisp_run q) as [sc' Et];
        [run_gui; rewrite !length_app, !length_firstn, !length_skipn; lia
        | rewrite Et; run_gui; auto]
    end.
  - intros H. destruct (Z.ltb_spec j (Z.of_nat (length lp))); [lia|]. reflexivity.
  - intros H. destruct (Z.ltb_spec j (Z.of_nat (length lp))); [|lia].
    rewrite py_del_below by lia. auto.
Qed.

(** X18.  Remove undoes Insert at the same index, for an index from 0 to
    the length of the lists: with lists that are aligned and not empty and
    entries that hold numbers, pressing Insert and then Remove returns
    both lists to what they were. *)
Theorem insert_then_remove (p : panel) (j : Z) (x y z pause : Q) :
  listpossave p <> [] ->
  aligned p ->
  entry1 p = Some x -> entry2 p = Some y -> entry3 p = Some z ->
  entry4 p = Some pause ->
  entry5 p = Some j ->
  0 <= j <= Z.of_nat (length (listpossave p)) ->
  fst (press insertelem p) = Done tt /\
  fst (press removeelement (snd (press insertelem p))) = Done tt /\
  listpossave (snd (press removeelement (snd (press insertelem p)))) =
    listpossave p /\
  listpausesave (snd (press removeelement (snd (press insertelem p)))) =
    listpausesave p.
Proof.
  intros Hne Hal E1 E2 E3 E4 E5 Hj.
  destruct p as [st e1 e2 e3 e4 e5 e6 e7 lp ps sc sl].
  unfold aligned in Hal.
  cbn [entry1 entry2 entry3 entry4 entry5 listpossave listpausesave] in *. subst.
  destruct lp as [|t lp]; [contradiction|].
  cbn [press]. unfold listinsert, entries_tup. run_gui.
  rewrite (py_insert_fits j) by (right; lia). run_gui.
  rewrite (py_insert_fits j) by (right; lia). run_gui.
  match goal with
  | |- context [textdisp ?q] =>
      destruct (textdisp_run q) as [sc' Et];
      [run_gui; rewrite !insert_at_length; lia
      | rewrite Et; run_gui]
  end.
  split; [reflexivity|].
  unfold removeelem. run_gui. rewrite insert_at_length.
  assert (Ej : j = Z.of_nat (Z.to_nat j)) by lia.
  set (i := Z.to_nat j) in *. clearbody i. subst j.
  destruct (Z.ltb_spec (Z.of_nat i) (Z.of_nat (S (length (t :: lp))))); [|lia].
  repeat (rewrite py_del_insert by lia; run_gui).
  match goal with
  | |- context [textdisp ?q] =>
      destruct (textdisp_run q) as [sc'' Et'];
      [run_gui; lia
      | rewrite Et'; run_gui; auto]
  end.
Qed.

(** ** The panel properties on a panel in use *)

Lemma positions_stay_triples_save :
  triples (snd (press savebutton sample_panel)).
Proof.
  apply (positions_stay_triples savebutton sample_panel).
  unfold triples. cbn [listpossave sample_panel]. repeat constructor.
Defined.

Lemma lists_stay_aligned_insert :
  aligned (snd (press insertelem sample_panel)).
Proof.
  apply (lists_stay_aligned insertelem sample_panel).
  - reflexivity.
  - reflexivity.
Defined.


Lemma no_button_exits_run :
  fst (press runbutton sample_panel) <> Failed (raised (SystemExit 1)).
Proof.
  apply (no_button_exits runbutton sample_panel 1).
  unfold triples. cbn [listpossave sample_panel]. repeat constructor.
Defined.

Lemma save_stores_running_totals_three :
  listpossave
    (save_all [(1, 2, 3, 5); (10, 20, 30, 6); (100, 200, 300, 7)]%Q
              (fresh_panel (connected_state 25 [] []))) =
    totals [(1, 2, 3, 5); (10, 20, 30, 6); (100, 200, 300, 7)]%Q /\
  listpausesave
    (save_all [(1, 2, 3, 5); (10, 20, 30, 6); (100, 200, 300, 7)]%Q
              (fresh_panel (connected_state 25 [] []))) = [5; 6; 7]%Q.
Proof.
  apply (save_stores_running_totals
           [(1, 2, 3, 5); (10, 20, 30, 6); (100, 200, 300, 7)]%Q
           (fresh_panel (connected_state 25 [] []))).
  - reflexivity.
  - reflexivity.
Defined.

Lemma savepos_out_of_step_sample :
  fst (press savebutton
         (fill None (Some 8%Q) (Some 9%Q) (Some 1%Q) None None None sample_panel)) =
    Failed ValueError /\
  listpossave
    (snd (press savebutton
            (fill None (Some 8%Q) (Some 9%Q) (Some 1%Q) None None None sample_panel))) =
    [[1; 2; 3]%Q; [11; 22; 33]%Q] /\
  listpausesave
    (snd (press savebutton
            (fill None (Some 8%Q) (Some 9%Q) (Some 1%Q) None None None sample_panel))) =
    [5; 6; 1]%Q.
Proof.
  destruct (savepos_out_of_step
              (fill None (Some 8%Q) (Some 9%Q) (Some 1%Q) None None None sample_panel)
              1%Q eq_refl (or_introl eq_refl)) as (H1 & H2 & H3 & _).
  exact (conj H1 (conj H2 H3)).
Defined.

Lemma listinsert_out_of_step_sample :
  fst (press insertelem
         (fill (Some 7%Q) (Some 8%Q) (Some 9%Q) None (Some 1) None None sample_panel)) =
    Failed ValueError /\
  listpossave
    (snd (press insertelem
            (fill (Some 7%Q) (Some 8%Q) (Some 9%Q) None (Some 1) None None
                  sample_panel))) =
    [[1; 2; 3]%Q; [7; 8; 9]%Q; [11; 22; 33]%Q] /\
  listpausesave
    (snd (press insertelem
            (fill (Some 7%Q) (Some 8%Q) (Some 9%Q) None (Some 1) None None
                  sample_panel))) = [5; 6]%Q.
Proof.
  destruct (listinsert_out_of_step
              (fill (Some 7%Q) (Some 8%Q) (Some 9%Q) None (Some 1) None None
                    sample_panel)
              1 7%Q 8%Q 9%Q ltac:(discriminate)
              eq_refl ltac:(vm_compute; split; discriminate)
              eq_refl eq_refl eq_refl eq_refl) as (H1 & _ & H2 & H3 & _).
  exact (conj H1 (conj H2 H3)).
Defined.

Lemma removeelem_by_index_sample :
  listpossave (snd (press removeelement sample_panel)) = [[1; 2; 3]%Q] /\
  listpausesave (snd (press removeelement sample_panel)) = [5%Q].
Proof.
  destruct (removeelem_by_index sample_panel 1 eq_refl eq_refl) as (H & _ & _).
  destruct H as (_ & H1 & H2).
  - cbn [listpossave sample_panel length]. lia.
  - exact (conj H1 H2).
Defined.

Lemma insert_then_remove_sample :
  listpossave (snd (press removeelement (snd (press insertelem sample_panel)))) =
    listpossave sample_panel /\
  listpausesave (snd (press removeelement (snd (press insertelem sample_panel)))) =
    listpausesave sample_panel.
Proof.
  destruct (insert_then_remove sample_panel 1 7%Q 8%Q 9%Q 1%Q
              ltac:(discriminate) eq_refl eq_refl eq_refl eq_refl eq_refl eq_refl)
    as (_ & _ & H1 & H2).
  - cbn [listpossave sample_panel length]. lia.
  - exact (conj H1 H2).
Defined.
